(** * Business / review REST backend (src/main.py): a shallow embedding

    The Flask handlers of [main.py] are embedded as computations over an
    explicit database state.  Conventions of the model:

    - Python integers are [Z]; strings are [string]; a dict is an
      insertion-ordered association list with unique keys;
    - a request carries [request.url], [request.base_url] and its body.
      The handlers are given over a body that is a JSON object ([Request])
      and, those that read the body, a second time over whatever
      [request.get_json()] finds ([HttpRequest] and the module [Http]): no
      JSON, JSON that does not parse, or a JSON value of any kind.  JSON
      booleans and floats are left out of the value type; where the
      handlers look at the body they behave like integers;
    - the database holds the two tables of [create_table_businesses] and
      [create_table_reviews]; a connection works on a private copy that
      [conn.commit()] publishes and that leaving the [with] block drops;
    - how the engine converts a bound parameter for a column is not fixed by
      [main.py]: it is the interface [Engine]; [mysql_strict] is the
      instance used in the examples;
    - a handler either returns a (body, status) pair or lets an exception
      escape, which Flask answers with status 500, or with its own code
      when it is the [HTTPException] of an abort. *)

From Stdlib Require Import ZArith List String Ascii Bool Lia DecimalString.
From Stdlib Require Import Sorted Permutation.
Import ListNotations.

Local Open Scope string_scope.
Local Open Scope list_scope.
Local Open Scope Z_scope.

(** ** Python values *)

#[warnings="-register-all"]
Inductive pyval : Type :=
| PNone
| PInt (z : Z)
| PStr (s : string)
| PList (l : list pyval)
| PDict (d : list (string * pyval)).

Definition dict : Type := list (string * pyval).

Inductive exn : Type :=
| AttributeError
| UnboundLocalError
| IndexError
| ValueError
| KeyError
| TypeError
| MultipleResultsFound
| DatabaseError
| HTTPException (code : Z).

Module Py.

(** [str(n)] for an integer. *)
Definition str (n : Z) : string := NilZero.string_of_int (Z.to_int n).

(** [k in d] *)
Fixpoint contains (d : dict) (k : string) : bool :=
  match d with
  | [] => false
  | (k', _) :: d' => if String.eqb k k' then true else contains d' k
  end.

(** [d[k]], [None] standing for [KeyError]. *)
Fixpoint getitem (d : dict) (k : string) : option pyval :=
  match d with
  | [] => None
  | (k', v) :: d' => if String.eqb k k' then Some v else getitem d' k
  end.

(** [d[k] = v]: an existing key keeps its place, a new one goes last. *)
Fixpoint setitem (d : dict) (k : string) (v : pyval) : dict :=
  match d with
  | [] => [(k, v)]
  | (k', v') :: d' =>
      if String.eqb k k' then (k', v) :: d' else (k', v') :: setitem d' k v
  end.

(** [del d[k]] on a dict that has the key. *)
Fixpoint delitem (d : dict) (k : string) : dict :=
  match d with
  | [] => []
  | (k', v') :: d' =>
      if String.eqb k k' then d' else (k', v') :: delitem d' k
  end.

(** [len(d)] *)
Definition len (d : dict) : Z := Z.of_nat (List.length d).

(** [s.split(sep)] for a one-character separator, the only kind the
    handlers of the listing use. *)
Fixpoint split_from (sep : ascii) (acc : string) (s : string) : list string :=
  match s with
  | EmptyString => [acc]
  | String c s' =>
      if Ascii.eqb c sep then acc :: split_from sep EmptyString s'
      else split_from sep (acc ++ String c EmptyString)%string s'
  end.

Definition split (s : string) (sep : ascii) : list string :=
  split_from sep EmptyString s.

(** [str.join] on the empty separator. *)
Definition join (l : list string) : string := String.concat EmptyString l.

(** [l[-1]] *)
Fixpoint last_item {A : Type} (l : list A) : option A :=
  match l with
  | [] => None
  | [x] => Some x
  | _ :: l' => last_item l'
  end.

(** [l[-1] = x] on a non-empty list. *)
Fixpoint set_last {A : Type} (l : list A) (x : A) : list A :=
  match l with
  | [] => []
  | [_] => [x]
  | y :: l' => y :: set_last l' x
  end.

(** [v[n:]]: defined on strings and on lists alike. *)
Definition slice_from (v : pyval) (n : nat) : option pyval :=
  match v with
  | PStr s => Some (PStr (String.substring n (String.length s - n) s))
  | PList l => Some (PList (skipn n l))
  | _ => None
  end.

(** [v.split(sep)]: only a string has the method. *)
Definition method_split (v : pyval) (sep : ascii) : exn + list string :=
  match v with
  | PStr s => inr (split s sep)
  | _ => inl AttributeError
  end.

(** [int(c)] for a one-character string. *)
Definition int_of_char (c : ascii) : option Z :=
  let n := Z.of_nat (nat_of_ascii c) in
  if (48 <=? n) && (n <=? 57) then Some (n - 48) else None.

(** [s[-1]] *)
Fixpoint last_char (s : string) : option ascii :=
  match s with
  | EmptyString => None
  | String c EmptyString => Some c
  | String _ s' => last_char s'
  end.

(** [a == b] for an integer [a] read from a row. *)
Definition eq_int (a : Z) (b : pyval) : bool :=
  match b with
  | PInt z => a =? z
  | _ => false
  end.

End Py.

(** ** The database *)

(** A row of [businesses] and a row of [reviews], with the columns of the
    two [CREATE TABLE] statements. *)
Record Business : Type := mkBusiness {
  business_id : Z;
  owner_id : Z;
  name : string;
  street_address : string;
  city : string;
  state : string;
  zip_code : Z
}.

Record Review : Type := mkReview {
  review_id : Z;
  user_id : Z;
  review_business_id : Z;   (* column business_id of reviews *)
  stars : Z;
  review_text : option string
}.

Record Database : Type := mkDatabase {
  businesses : list Business;
  reviews : list Review;
  businesses_auto_increment : Z;
  reviews_auto_increment : Z
}.

(** [row._asdict()] *)
Definition business_asdict (b : Business) : dict :=
  [("business_id", PInt (business_id b));
   ("owner_id", PInt (owner_id b));
   ("name", PStr (name b));
   ("street_address", PStr (street_address b));
   ("city", PStr (city b));
   ("state", PStr (state b));
   ("zip_code", PInt (zip_code b))].

Definition review_asdict (r : Review) : dict :=
  [("review_id", PInt (review_id r));
   ("user_id", PInt (user_id r));
   ("business_id", PInt (review_business_id r));
   ("stars", PInt (stars r));
   ("review_text", match review_text r with Some s => PStr s | None => PNone end)].

(** What the engine does with a bound parameter: the value it stores in a
    column of the given type ([None]: the statement is rejected) and the
    outcome of [column = :parameter] in a [WHERE] clause.  The one law is
    that an integer column compares with an integer parameter by value. *)
Class Engine : Type := {
  to_int : pyval -> option Z;                         (* INT NOT NULL *)
  to_bigint : pyval -> option Z;                      (* BIGINT NOT NULL *)
  to_varchar : nat -> pyval -> option string;         (* VARCHAR(n) NOT NULL *)
  to_varchar_null : nat -> pyval -> option (option string);  (* VARCHAR(n) *)
  param_eq : Z -> pyval -> bool;
  param_eq_int : forall c z, param_eq c (PInt z) = (c =? z)
}.

Definition in_range (bits : Z) (z : Z) : bool :=
  (- 2 ^ (bits - 1) <=? z) && (z <? 2 ^ (bits - 1)).

Definition fits (n : nat) (s : string) : bool :=
  (String.length s <=? n)%nat.

(** An engine without conversions: integers in range and strings that fit
    are stored as they are, anything else is rejected. *)
#[export, refine] Instance mysql_strict : Engine := {
  to_int v := match v with
              | PInt z => if in_range 32 z then Some z else None
              | _ => None
              end;
  to_bigint v := match v with
                 | PInt z => if in_range 64 z then Some z else None
                 | _ => None
                 end;
  to_varchar n v := match v with
                    | PStr s => if fits n s then Some s else None
                    | _ => None
                    end;
  to_varchar_null n v := match v with
                         | PNone => Some None
                         | PStr s => if fits n s then Some (Some s) else None
                         | _ => None
                         end;
  param_eq := Py.eq_int
}.
Proof. reflexivity. Defined.

(** ** Connections and control flow *)

Inductive statement : Type := Select | Insert | Update | Delete | Commit.

Definition mutating (s : statement) : bool :=
  match s with
  | Insert | Update | Delete => true
  | Select | Commit => false
  end.

(** The state a handler runs in: the committed database, the working copy
    of the open connection, the connection's [last_insert_id()] and the
    statements executed so far. *)
Record world : Type := mkWorld {
  committed : Database;
  working : Database;
  last_insert_id : Z;
  executed : list statement
}.

Definition response : Type := (pyval * Z)%type.

(** A step either goes on with a value, returns from the handler, or raises. *)
Inductive ctl (A : Type) : Type :=
| Next (a : A)
| Return (r : response)
| Raise (e : exn).

Arguments Next {A} a.
Arguments Return {A} r.
Arguments Raise {A} e.

Definition M (A : Type) : Type := world -> ctl A * world.

Definition ret {A : Type} (a : A) : M A := fun w => (Next a, w).

Definition bind {A B : Type} (m : M A) (k : A -> M B) : M B :=
  fun w =>
    match m w with
    | (Next a, w') => k a w'
    | (Return r, w') => (Return r, w')
    | (Raise e, w') => (Raise e, w')
    end.

Definition return_ {A : Type} (r : response) : M A := fun w => (Return r, w).

Definition raise {A : Type} (e : exn) : M A := fun w => (Raise e, w).

Declare Scope handler_scope.
Delimit Scope handler_scope with handler.
Notation "x <- m ;; k" := (bind m (fun x => k))
  (at level 100, m at next level, right associativity) : handler_scope.
Notation "m ;; k" := (bind m (fun _ => k))
  (at level 100, right associativity) : handler_scope.
Local Open Scope handler_scope.

(** A Python operation that can fail with the exception [e]. *)
Definition or_raise {A : Type} (e : exn) (o : option A) : M A :=
  match o with
  | Some a => ret a
  | None => raise e
  end.

(** [with db.connect() as conn: body]: whatever was not committed is gone
    when the block is left, by a return and by an exception alike. *)
Definition with_connect {A : Type} (body : M A) : M A :=
  fun w =>
    let '(c, w') := body w in
    (c, mkWorld (committed w') (committed w') (last_insert_id w') (executed w')).

(** [try: body except Exception as e: handler] *)
Definition try_except {A : Type} (body : M A) (handler : exn -> M A) : M A :=
  fun w =>
    match body w with
    | (Raise e, w') => handler e w'
    | r => r
    end.

(** [conn.execute] of a statement that reads. *)
Definition query {A : Type} (f : Database -> A) : M A :=
  fun w =>
    (Next (f (working w)),
     mkWorld (committed w) (working w) (last_insert_id w) (executed w ++ [Select])).

(** [conn.execute] of a statement that writes: [f] gives the new working
    copy and the new [last_insert_id()], or nothing when the engine rejects
    the statement. *)
Definition modify (s : statement) (f : Database -> Z -> option (Database * Z)) : M unit :=
  fun w =>
    let log := executed w ++ [s] in
    match f (working w) (last_insert_id w) with
    | Some (db, id) => (Next tt, mkWorld (committed w) db id log)
    | None => (Raise DatabaseError,
               mkWorld (committed w) (working w) (last_insert_id w) log)
    end.

(** [conn.commit()] *)
Definition commit : M unit :=
  fun w =>
    (Next tt,
     mkWorld (working w) (working w) (last_insert_id w) (executed w ++ [Commit])).

(** [result.one_or_none()] *)
Definition one_or_none {A : Type} (rows : list A) : M (option A) :=
  match rows with
  | [] => ret None
  | [row] => ret (Some row)
  | _ => raise MultipleResultsFound
  end.

(** ** The SQL statements of main.py *)

Section Statements.
Context {E : Engine}.

(** [SELECT business_id, ..., zip_code FROM businesses
     WHERE business_id=:business_id] *)
Definition select_business (p : pyval) : M (list Business) :=
  query (fun db => filter (fun b => param_eq (business_id b) p) (businesses db)).

Fixpoint insert_by_business_id (b : Business) (l : list Business) : list Business :=
  match l with
  | [] => [b]
  | x :: l' =>
      if business_id b <=? business_id x then b :: l
      else x :: insert_by_business_id b l'
  end.

Definition order_by_business_id (l : list Business) : list Business :=
  fold_right insert_by_business_id [] l.

(** The rows of [... ORDER BY business_id LIMIT :limit OFFSET :offset]. *)
Definition page (db : Database) (limit offset : Z) : list Business :=
  firstn (Z.to_nat limit)
    (skipn (Z.to_nat offset) (order_by_business_id (businesses db))).

(** [SELECT * FROM businesses ORDER BY business_id
     LIMIT :limit OFFSET :offset]; a negative bound is a syntax error. *)
Definition select_businesses_page (limit offset : Z) : M (list Business) :=
  rows <- query (fun db =>
            if (limit <? 0) || (offset <? 0) then None
            else Some (page db limit offset)) ;;
  or_raise DatabaseError rows.

(** [SELECT * FROM businesses WHERE owner_id=:owner_id] *)
Definition select_businesses_of_owner (p : pyval) : M (list Business) :=
  query (fun db => filter (fun b => param_eq (owner_id b) p) (businesses db)).

(** [INSERT INTO businesses(owner_id, ..., zip_code) VALUES (...)]: the key
    is the table's AUTO_INCREMENT value. *)
Definition insert_business
    (v_owner_id v_name v_street_address v_city v_state v_zip_code : pyval) : M unit :=
  modify Insert (fun db _ =>
    match to_int v_owner_id, to_varchar 50 v_name,
          to_varchar 100 v_street_address, to_varchar 50 v_city,
          to_varchar 2 v_state, to_int v_zip_code with
    | Some o, Some n, Some a, Some c, Some s, Some z =>
        let id := businesses_auto_increment db in
        if existsb (fun b => business_id b =? id) (businesses db) then None
        else Some (mkDatabase (businesses db ++ [mkBusiness id o n a c s z])
                     (reviews db) (id + 1) (reviews_auto_increment db), id)
    | _, _, _, _, _, _ => None
    end).

(** [UPDATE businesses SET owner_id = ..., zip_code = ...
     WHERE business_id = :business_id] *)
Definition update_business
    (v_owner_id v_name v_street_address v_city v_state v_zip_code p : pyval) : M unit :=
  modify Update (fun db last =>
    match to_int v_owner_id, to_varchar 50 v_name,
          to_varchar 100 v_street_address, to_varchar 50 v_city,
          to_varchar 2 v_state, to_int v_zip_code with
    | Some o, Some n, Some a, Some c, Some s, Some z =>
        Some (mkDatabase
                (map (fun b => if param_eq (business_id b) p
                               then mkBusiness (business_id b) o n a c s z
                               else b) (businesses db))
                (reviews db) (businesses_auto_increment db)
                (reviews_auto_increment db), last)
    | _, _, _, _, _, _ => None
    end).

(** [DELETE FROM businesses WHERE business_id=:business_id], with the
    [ON DELETE CASCADE] of the foreign key of [reviews]. *)
Definition delete_from_businesses (p : pyval) : M unit :=
  modify Delete (fun db last =>
    let gone b := param_eq (business_id b) p in
    Some (mkDatabase
            (filter (fun b => negb (gone b)) (businesses db))
            (filter (fun r =>
                       negb (existsb (fun b => gone b &&
                                       (business_id b =? review_business_id r))
                               (businesses db)))
               (reviews db))
            (businesses_auto_increment db) (reviews_auto_increment db), last)).

(** [SELECT * FROM reviews WHERE business_id=:business_id] *)
Definition select_reviews_of_business (p : pyval) : M (list Review) :=
  query (fun db => filter (fun r => param_eq (review_business_id r) p) (reviews db)).

(** [SELECT * FROM reviews WHERE review_id=:review_id] *)
Definition select_review (p : pyval) : M (list Review) :=
  query (fun db => filter (fun r => param_eq (review_id r) p) (reviews db)).

(** [INSERT INTO reviews(user_id, business_id, stars[, review_text])
     VALUES (...)]: a column that is not listed is NULL; the foreign key
    needs the business to exist. *)
Definition insert_review
    (v_user_id v_business_id v_stars : pyval) (v_review_text : option pyval) : M unit :=
  modify Insert (fun db _ =>
    match to_int v_user_id, to_bigint v_business_id, to_int v_stars,
          match v_review_text with
          | Some v => to_varchar_null 1000 v
          | None => Some None
          end with
    | Some u, Some b, Some s, Some t =>
        let id := reviews_auto_increment db in
        if existsb (fun r => review_id r =? id) (reviews db) then None
        else if negb (existsb (fun x => business_id x =? b) (businesses db)) then None
        else Some (mkDatabase (businesses db)
                     (reviews db ++ [mkReview id u b s t])
                     (businesses_auto_increment db) (id + 1), id)
    | _, _, _, _ => None
    end).

(** [UPDATE reviews SET stars = :stars[, review_text = :review_text]
     WHERE review_id = :review_id] *)
Definition update_review
    (v_stars : pyval) (v_review_text : option pyval) (p : pyval) : M unit :=
  modify Update (fun db last =>
    match to_int v_stars,
          match v_review_text with
          | Some v => option_map Some (to_varchar_null 1000 v)
          | None => Some None
          end with
    | Some s, Some t =>
        Some (mkDatabase (businesses db)
                (map (fun r => if param_eq (review_id r) p
                               then mkReview (review_id r) (user_id r)
                                      (review_business_id r) s
                                      (match t with
                                       | Some t' => t'
                                       | None => review_text r
                                       end)
                               else r) (reviews db))
                (businesses_auto_increment db) (reviews_auto_increment db), last)
    | _, _ => None
    end).

(** [DELETE FROM reviews WHERE review_id=:review_id] *)
Definition delete_from_reviews (p : pyval) : M unit :=
  modify Delete (fun db last =>
    Some (mkDatabase (businesses db)
            (filter (fun r => negb (param_eq (review_id r) p)) (reviews db))
            (businesses_auto_increment db) (reviews_auto_increment db), last)).

(** [SELECT last_insert_id()] with [.scalar()] *)
Definition select_last_insert_id : M Z :=
  fun w => query (fun _ => last_insert_id w) w.

End Statements.

(** ** The handlers *)

Record Request : Type := mkRequest {
  url : string;        (* request.url: the full URL, query string included *)
  base_url : string;   (* request.base_url: the URL without the query string *)
  get_json : dict      (* request.get_json(), for a body that is an object *)
}.

Definition BUSINESSES : string := "businesses".
Definition BUSINESS_ID : string := "business_id".
Definition BUSINESSES_REQUIRED_ATTRIBUTES : list string :=
  ["owner_id"; "name"; "street_address"; "city"; "state"; "zip_code"].
Definition REVIEWS : string := "reviews".
Definition REVIEW_ID : string := "review_id".
Definition REVIEWS_REQUIRED_ATTRIBUTES : list string :=
  ["user_id"; "business_id"; "stars"].
Definition POST_PUT_ERROR : dict :=
  [("Error", PStr "The request body is missing at least one of the required attributes")].

Fixpoint validate_business_post_put (request_json : dict) (attributes : list string) : bool :=
  match attributes with
  | [] => true
  | key :: attributes' =>
      if negb (Py.contains request_json key) then false
      else validate_business_post_put request_json attributes'
  end.

Definition generate_self_url (url : string) (id : Z) : string :=
  (url ++ "/" ++ Py.str id)%string.

Definition generate_not_found_message (business_or_review id_attribute : string) : dict :=
  let business_or_review :=
    if String.eqb business_or_review "businesses" then "business" else "review" in
  let not_found_str :=
    ("No " ++ business_or_review ++ " with this " ++ id_attribute ++ " exists")%string in
  [("Error", PStr not_found_str)].

(** [content[key]] *)
Definition item (content : dict) (key : string) : M pyval :=
  or_raise KeyError (Py.getitem content key).

Section Handlers.
Context {E : Engine}.

Definition post_business (request : Request) : M unit :=
  let content := get_json request in
  let valid_business := validate_business_post_put content BUSINESSES_REQUIRED_ATTRIBUTES in
  if negb valid_business then return_ (PDict POST_PUT_ERROR, 400)
  else
    business_id <-
      try_except
        (with_connect (
           v_owner_id <- item content "owner_id" ;;
           v_name <- item content "name" ;;
           v_street_address <- item content "street_address" ;;
           v_city <- item content "city" ;;
           v_state <- item content "state" ;;
           v_zip_code <- item content "zip_code" ;;
           insert_business v_owner_id v_name v_street_address v_city v_state v_zip_code ;;
           business_id <- select_last_insert_id ;;
           commit ;;
           ret business_id))
        (fun e => return_ (PDict [("Error", PStr "Unable to create business")], 500)) ;;
    v_owner_id <- item content "owner_id" ;;
    v_name <- item content "name" ;;
    v_street_address <- item content "street_address" ;;
    v_city <- item content "city" ;;
    v_state <- item content "state" ;;
    v_zip_code <- item content "zip_code" ;;
    return_ (PDict [("id", PInt business_id);
                    ("owner_id", v_owner_id);
                    ("name", v_name);
                    ("street_address", v_street_address);
                    ("city", v_city);
                    ("state", v_state);
                    ("zip_code", v_zip_code);
                    ("self", PStr (generate_self_url (base_url request) business_id))],
             201).

(** The loop [for param in url] of [get_businesses]. *)
Fixpoint read_params (params : list string) (offset limit : Z) : M (Z * Z) :=
  match params with
  | [] => ret (offset, limit)
  | param :: params' =>
      c <- or_raise IndexError (Py.last_char param) ;;
      n <- or_raise ValueError (Py.int_of_char c) ;;
      if String.eqb (String.substring 0 6 param) "offset"
      then read_params params' n limit
      else read_params params' offset n
  end.

(** The loop [for row in rows] of [get_businesses]: the list built so far
    and the variable [business], unbound before the first iteration. *)
Definition list_businesses (request : Request) (rows : list Business)
    : list dict * option dict :=
  fold_left
    (fun acc row =>
       let business := business_asdict row in
       let id := business_id row in   (* business["business_id"] *)
       let business :=
         Py.setitem business "self" (PStr (generate_self_url (base_url request) id)) in
       (fst acc ++ [business], Some business))
    rows ([], None).

Definition get_businesses (request : Request) : M unit :=
  let offset := 0 in
  let limit := 3 in
  let segments := Py.split (url request) "/" in
  last <- or_raise IndexError (Py.last_item segments) ;;
  window <-
    (if negb (String.eqb last BUSINESSES) then
       (* url = url[11:] slices the list of segments, not its last one *)
       sliced <- or_raise AttributeError
                   (Py.slice_from (PList (map PStr segments)) 11) ;;
       match Py.method_split sliced "&" with
       | inl e => raise e
       | inr params => read_params params offset limit
       end
     else ret (offset, limit)) ;;
  let '(offset, limit) := window in
  with_connect (
    rows <- select_businesses_page limit offset ;;
    let '(businesses, business) := list_businesses request rows in
    let response_dict := [("entries", PList (map PDict businesses))] in
    (* len(business): the dict of the last row, not the list *)
    business <- or_raise UnboundLocalError business ;;
    if Py.len business =? limit then
      let offset := offset + limit in
      let param_str :=
        ("?offset=" ++ Py.str offset ++ "&limit=" ++ Py.str limit)%string in
      let next_url := Py.split (url request) "?" in
      let next_url := Py.set_last next_url param_str in
      return_ (PDict (Py.setitem response_dict "next" (PStr (Py.join next_url))), 200)
    else return_ (PDict response_dict, 200)).

Definition put_business (request : Request) (id : Z) : M unit :=
  let content := get_json request in
  let valid_business := validate_business_post_put content BUSINESSES_REQUIRED_ATTRIBUTES in
  if negb valid_business then return_ (PDict POST_PUT_ERROR, 400)
  else
    with_connect (
      rows <- select_business (PInt id) ;;
      row <- one_or_none rows ;;
      match row with
      | None => return_ (PDict (generate_not_found_message BUSINESSES BUSINESS_ID), 404)
      | Some _ =>
          v_owner_id <- item content "owner_id" ;;
          v_name <- item content "name" ;;
          v_street_address <- item content "street_address" ;;
          v_city <- item content "city" ;;
          v_state <- item content "state" ;;
          v_zip_code <- item content "zip_code" ;;
          update_business v_owner_id v_name v_street_address v_city v_state
            v_zip_code (PInt id) ;;
          commit ;;
          return_ (PDict [("id", PInt id);
                          ("owner_id", v_owner_id);
                          ("name", v_name);
                          ("street_address", v_street_address);
                          ("city", v_city);
                          ("state", v_state);
                          ("zip_code", v_zip_code);
                          ("self", PStr (base_url request))],
                   200)
      end).

Definition delete_business (request : Request) (id : Z) : M unit :=
  with_connect (
    rows <- select_business (PInt id) ;;
    row <- one_or_none rows ;;
    match row with
    | None => return_ (PDict (generate_not_found_message BUSINESSES BUSINESS_ID), 404)
    | Some _ =>
        delete_from_businesses (PInt id) ;;
        commit ;;
        return_ (PStr EmptyString, 204)
    end).

Definition get_owners_businesses (request : Request) (id : Z) : M unit :=
  with_connect (
    rows <- select_businesses_of_owner (PInt id) ;;
    let business_list :=
      fold_left
        (fun business_list row =>
           let business := business_asdict row in
           let business :=
             Py.setitem business "self"
               (PStr (generate_self_url (base_url request) id)) in
           business_list ++ [business])
        rows [] in
    return_ (PList (map PDict business_list), 200)).

Definition post_review (request : Request) : M unit :=
  let content := get_json request in
  let valid_review := validate_business_post_put content REVIEWS_REQUIRED_ATTRIBUTES in
  let has_review_text := Py.contains content "review_text" in
  if negb valid_review then return_ (PDict POST_PUT_ERROR, 400)
  else
    review_id <-
      try_except
        (with_connect (
           id <- item content "business_id" ;;
           (* Check if business with given id exists *)
           rows <- select_business id ;;
           row <- one_or_none rows ;;
           match row with
           | None =>
               return_ (PDict (generate_not_found_message BUSINESSES BUSINESS_ID), 404)
           | Some _ =>
               (* Check if user has already left a review for this business *)
               rows <- select_reviews_of_business id ;;
               row <- one_or_none rows ;;
               duplicate <-
                 match row with
                 | Some review =>
                     v_user_id <- item content "user_id" ;;
                     ret (Py.eq_int (user_id review) v_user_id)
                 | None => ret false
                 end ;;
               if (duplicate : bool) then
                 return_ (PDict [("Error", PStr "You have already submitted a review for this business. You can update your previous review, or delete it and submit a new review")],
                          409)
               else
                 v_user_id <- item content "user_id" ;;
                 v_business_id <- item content "business_id" ;;
                 v_stars <- item content "stars" ;;
                 (if has_review_text then
                    v_review_text <- item content "review_text" ;;
                    insert_review v_user_id v_business_id v_stars (Some v_review_text)
                  else
                    insert_review v_user_id v_business_id v_stars None) ;;
                 review_id <- select_last_insert_id ;;
                 commit ;;
                 ret review_id
           end))
        (fun e => return_ (PDict [("Error", PStr "Unable to create review")], 500)) ;;
    v_user_id <- item content "user_id" ;;
    v_business_id <- item content "business_id" ;;
    v_stars <- item content "stars" ;;
    if has_review_text then
      v_review_text <- item content "review_text" ;;
      return_ (PDict [("id", PInt review_id);
                      ("user_id", v_user_id);
                      ("business_id", v_business_id);
                      ("stars", v_stars);
                      ("review_text", v_review_text);
                      ("self", PStr (generate_self_url (base_url request) review_id))],
               201)
    else
      return_ (PDict [("id", PInt review_id);
                      ("user_id", v_user_id);
                      ("business_id", v_business_id);
                      ("stars", v_stars);
                      ("self", PStr (generate_self_url (base_url request) review_id))],
               201).

Definition put_review (request : Request) (id : Z) : M unit :=
  let content := get_json request in
  if negb (Py.contains content "stars") then return_ (PDict POST_PUT_ERROR, 400)
  else
    let has_review_text := Py.contains content "review_text" in
    with_connect (
      rows <- select_review (PInt id) ;;
      row <- one_or_none rows ;;
      match row with
      | None => return_ (PDict (generate_not_found_message REVIEWS REVIEW_ID), 404)
      | Some row =>
          v_stars <- item content "stars" ;;
          (if has_review_text then
             v_review_text <- item content "review_text" ;;
             update_review v_stars (Some v_review_text) (PInt id)
           else
             update_review v_stars None (PInt id)) ;;
          commit ;;
          let business_id := review_business_id row in   (* row["business_id"] *)
          let row := review_asdict row in
          let row := Py.setitem row "stars" v_stars in
          let row := Py.setitem row "business"
                       (PStr (generate_self_url (base_url request) business_id)) in
          let row := Py.delitem row "business_id" in
          row <- (if has_review_text then
                    v_review_text <- item content "review_text" ;;
                    ret (Py.setitem row "review_text" v_review_text)
                  else ret row) ;;
          let row := Py.setitem row "self"
                       (PStr (generate_self_url (base_url request) id)) in
          return_ (PDict row, 200)
      end).

Definition delete_review (request : Request) (id : Z) : M unit :=
  with_connect (
    rows <- select_review (PInt id) ;;
    row <- one_or_none rows ;;
    match row with
    | None => return_ (PDict (generate_not_found_message REVIEWS REVIEW_ID), 404)
    | Some _ =>
        delete_from_reviews (PInt id) ;;
        commit ;;
        return_ (PStr EmptyString, 204)
    end).

End Handlers.

(** ** Running a handler *)

(** What the client sees: the returned body and status, or the exception
    that escaped the handler. *)
Inductive outcome : Type :=
| Responded (body : pyval) (status : Z)
| Failed (e : exn).

Definition status_of (o : outcome) : Z :=
  match o with
  | Responded _ status => status
  | Failed _ => 500
  end.

Record result : Type := mkResult {
  answer : outcome;
  database : Database;       (* the committed database after the request *)
  statements : list statement
}.

(** A view function that ends without [return] gives [None] to Flask,
    which raises [TypeError]. *)
Definition run (handler : M unit) (db : Database) : result :=
  let '(c, w) := handler (mkWorld db db 0 []) in
  mkResult
    (match c with
     | Next _ => Failed TypeError
     | Return (body, status) => Responded body status
     | Raise e => Failed e
     end)
    (committed w) (executed w).

(** The routes that write. *)
Inductive write_route : Type :=
| POST_businesses
| PUT_businesses (id : Z)
| DELETE_businesses (id : Z)
| POST_reviews
| PUT_reviews (id : Z)
| DELETE_reviews (id : Z).

Definition dispatch {E : Engine} (route : write_route) (request : Request) : M unit :=
  match route with
  | POST_businesses => post_business request
  | PUT_businesses id => put_business request id
  | DELETE_businesses id => delete_business request id
  | POST_reviews => post_review request
  | PUT_reviews id => put_review request id
  | DELETE_reviews id => delete_review request id
  end.

(** ** The reading routes *)

(** [s.split(sep)] for a separator of one character or more: the
    occurrences are found from the left and do not overlap.  [skip] counts
    the characters of an occurrence that are still to be passed. *)
Fixpoint split_on_from (sep : string) (skip : nat) (acc : string) (s : string)
    : list string :=
  match s with
  | EmptyString => [acc]
  | String c s' =>
      match skip with
      | S skip' => split_on_from sep skip' acc s'
      | O =>
          if String.prefix sep s
          then acc :: split_on_from sep (String.length sep - 1) EmptyString s'
          else split_on_from sep 0 (acc ++ String c EmptyString)%string s'
      end
  end.

Definition split_on (s : string) (sep : string) : list string :=
  split_on_from sep 0 EmptyString s.

Section Readers.
Context {E : Engine}.

(** [SELECT * FROM reviews WHERE user_id=:user_id] *)
Definition select_reviews_of_user (p : pyval) : M (list Review) :=
  query (fun db => filter (fun r => param_eq (user_id r) p) (reviews db)).

Definition index : M unit :=
  return_ (PStr "Please navigate to /lodgings to use this API", 200).

Definition get_business (request : Request) (id : Z) : M unit :=
  with_connect (
    rows <- select_business (PInt id) ;;
    row <- one_or_none rows ;;
    match row with
    | None => return_ (PDict (generate_not_found_message BUSINESSES BUSINESS_ID), 404)
    | Some row =>
        let business := business_asdict row in
        let business := Py.setitem business "self" (PStr (base_url request)) in
        v <- item business "business_id" ;;
        let business := Py.setitem business "id" v in
        let business := Py.delitem business "business_id" in
        return_ (PDict business, 200)
    end).

Definition get_review (request : Request) (id : Z) : M unit :=
  with_connect (
    rows <- select_review (PInt id) ;;
    row <- one_or_none rows ;;
    match row with
    | None => return_ (PDict (generate_not_found_message REVIEWS REVIEW_ID), 404)
    | Some row =>
        let review := review_asdict row in
        let review := Py.setitem review "self" (PStr (base_url request)) in
        return_ (PDict review, 200)
    end).

(** The body of the loop [for row in rows] of [get_users_reviews]. *)
Definition users_review (request : Request) (row : Review) : dict :=
  let review := review_asdict row in
  let url := split_on (base_url request) "users" in
  let url := Py.set_last url (REVIEWS ++ "/" ++ Py.str (review_id row))%string in
  let review := Py.setitem review "self" (PStr (Py.join url)) in
  let business_id := review_business_id row in   (* review["business_id"] *)
  let url := split_on (base_url request) "users" in
  let url := Py.set_last url (BUSINESSES ++ "/" ++ Py.str business_id)%string in
  let review := Py.setitem review "business" (PStr (Py.join url)) in
  let review := Py.delitem review "business_id" in
  let review := Py.setitem review "id" (PInt (review_id row)) in   (* review["review_id"] *)
  let review := Py.delitem review "review_id" in
  review.

Definition get_users_reviews (request : Request) (id : Z) : M unit :=
  with_connect (
    rows <- select_reviews_of_user (PInt id) ;;
    let review_list :=
      fold_left (fun review_list row => review_list ++ [users_review request row])
        rows [] in
    return_ (PList (map PDict review_list), 200)).

End Readers.

(** The routes that read. *)
Inductive read_route : Type :=
| GET_index
| GET_businesses
| GET_business (id : Z)
| GET_owners_businesses (id : Z)
| GET_review (id : Z)
| GET_users_reviews (id : Z).

Definition dispatch_read {E : Engine} (route : read_route) (request : Request) : M unit :=
  match route with
  | GET_index => index
  | GET_businesses => get_businesses request
  | GET_business id => get_business request id
  | GET_owners_businesses id => get_owners_businesses request id
  | GET_review id => get_review request id
  | GET_users_reviews id => get_users_reviews request id
  end.

(** ** The integrity of the two tables *)

(** The keys of the two [CREATE TABLE] statements: [business_id] and
    [review_id] are primary keys, and [reviews.business_id] refers to a row
    of [businesses]. *)
Definition well_formed (db : Database) : Prop :=
  NoDup (map business_id (businesses db))
  /\ NoDup (map review_id (reviews db))
  /\ Forall (fun r => exists b, In b (businesses db)
                                /\ business_id b = review_business_id r)
       (reviews db).

(** No user has two reviews of one business. *)
Definition one_review_each (db : Database) : Prop :=
  NoDup (map (fun r => (user_id r, review_business_id r)) (reviews db)).

(** [m] keeps [I] on the committed database and on the working copy. *)
Definition keeps (I : Database -> Prop) {A : Type} (m : M A) : Prop :=
  forall w c w',
    I (committed w) -> I (working w) -> m w = (c, w') ->
    I (committed w') /\ I (working w').

(** [m] executes no statement but SELECT and commits nothing. *)
Definition read_only {A : Type} (m : M A) : Prop :=
  forall w c w',
    m w = (c, w') ->
    committed w' = committed w
    /\ exists selects,
         executed w' = executed w ++ selects
         /\ Forall (fun s => s = Select) selects.

(** ** The body of a request, whatever JSON it holds *)

(** The handlers above take the body of the request as a JSON object.
    [request.get_json()] gives whatever JSON value the client sent, and
    Python's [in] and [[]] are defined, or not, on each kind of value.  The
    handlers that read the body are given here a second time over the body
    as it arrives; on an object they are the handlers above
    ([post_business_on_object] and the lemmas after it).  A JSON boolean or
    float behaves like [PInt] in all that follows: it has neither [in] nor
    [[]]. *)

(** What [request.get_json()] finds: no JSON body, a body that does not
    parse, or a JSON value. *)
Inductive payload : Type :=
| NoJson
| BadJson
| Json (v : pyval).

Record HttpRequest : Type := mkHttpRequest {
  http_url : string;
  http_base_url : string;
  http_body : payload
}.

(** The request whose body is the object [content]. *)
Definition with_object (request : HttpRequest) (content : dict) : Request :=
  mkRequest (http_url request) (http_base_url request) content.

(** [needle in hay] for two strings. *)
Definition mentions (needle hay : string) : bool :=
  match String.index 0 needle hay with
  | Some _ => true
  | None => false
  end.

(** A Python operation that gives a value or raises. *)
Definition lift {A : Type} (r : exn + A) : M A :=
  match r with
  | inl e => raise e
  | inr a => ret a
  end.

Module Http.

(** [request.get_json()]: without a JSON body Flask aborts the request with
    415, on a body that does not parse with 400. *)
Definition get_json (request : HttpRequest) : M pyval :=
  match http_body request with
  | Json v => ret v
  | BadJson => raise (HTTPException 400)
  | NoJson => raise (HTTPException 415)
  end.

(** [x == key] for a string [key]. *)
Definition is_str (key : string) (x : pyval) : bool :=
  match x with
  | PStr s => String.eqb s key
  | _ => false
  end.

(** [key in container]: a key of a dict, an element of a list, a substring
    of a string; [None] and a number are not iterable. *)
Definition contains (container : pyval) (key : string) : exn + bool :=
  match container with
  | PDict d => inr (Py.contains d key)
  | PList l => inr (existsb (is_str key) l)
  | PStr s => inr (mentions key s)
  | PNone | PInt _ => inl TypeError
  end.

(** [container[key]] for a string [key]: only a dict takes it. *)
Definition item (container : pyval) (key : string) : M pyval :=
  match container with
  | PDict d => or_raise KeyError (Py.getitem d key)
  | _ => raise TypeError
  end.

Fixpoint validate_business_post_put (request_json : pyval) (attributes : list string)
    : exn + bool :=
  match attributes with
  | [] => inr true
  | key :: attributes' =>
      match contains request_json key with
      | inl e => inl e
      | inr false => inr false
      | inr true => validate_business_post_put request_json attributes'
      end
  end.

Section Handlers.
Context {E : Engine}.

Definition post_business (request : HttpRequest) : M unit :=
  content <- get_json request ;;
  valid_business <-
    lift (validate_business_post_put content BUSINESSES_REQUIRED_ATTRIBUTES) ;;
  if negb valid_business then return_ (PDict POST_PUT_ERROR, 400)
  else
    business_id <-
      try_except
        (with_connect (
           v_owner_id <- item content "owner_id" ;;
           v_name <- item content "name" ;;
           v_street_address <- item content "street_address" ;;
           v_city <- item content "city" ;;
           v_state <- item content "state" ;;
           v_zip_code <- item content "zip_code" ;;
           insert_business v_owner_id v_name v_street_address v_city v_state v_zip_code ;;
           business_id <- select_last_insert_id ;;
           commit ;;
           ret business_id))
        (fun e => return_ (PDict [("Error", PStr "Unable to create business")], 500)) ;;
    v_owner_id <- item content "owner_id" ;;
    v_name <- item content "name" ;;
    v_street_address <- item content "street_address" ;;
    v_city <- item content "city" ;;
    v_state <- item content "state" ;;
    v_zip_code <- item content "zip_code" ;;
    return_ (PDict [("id", PInt business_id);
                    ("owner_id", v_owner_id);
                    ("name", v_name);
                    ("street_address", v_street_address);
                    ("city", v_city);
                    ("state", v_state);
                    ("zip_code", v_zip_code);
                    ("self", PStr (generate_self_url (http_base_url request) business_id))],
             201).

Definition put_business (request : HttpRequest) (id : Z) : M unit :=
  content <- get_json request ;;
  valid_business <-
    lift (validate_business_post_put content BUSINESSES_REQUIRED_ATTRIBUTES) ;;
  if negb valid_business then return_ (PDict POST_PUT_ERROR, 400)
  else
    with_connect (
      rows <- select_business (PInt id) ;;
      row <- one_or_none rows ;;
      match row with
      | None => return_ (PDict (generate_not_found_message BUSINESSES BUSINESS_ID), 404)
      | Some _ =>
          v_owner_id <- item content "owner_id" ;;
          v_name <- item content "name" ;;
          v_street_address <- item content "street_address" ;;
          v_city <- item content "city" ;;
          v_state <- item content "state" ;;
          v_zip_code <- item content "zip_code" ;;
          update_business v_owner_id v_name v_street_address v_city v_state
            v_zip_code (PInt id) ;;
          commit ;;
          return_ (PDict [("id", PInt id);
                          ("owner_id", v_owner_id);
                          ("name", v_name);
                          ("street_address", v_street_address);
                          ("city", v_city);
                          ("state", v_state);
                          ("zip_code", v_zip_code);
                          ("self", PStr (http_base_url request))],
                   200)
      end).

Definition post_review (request : HttpRequest) : M unit :=
  content <- get_json request ;;
  valid_review <-
    lift (validate_business_post_put content REVIEWS_REQUIRED_ATTRIBUTES) ;;
  has_review_text <- lift (contains content "review_text") ;;
  if negb valid_review then return_ (PDict POST_PUT_ERROR, 400)
  else
    review_id <-
      try_except
        (with_connect (
           id <- item content "business_id" ;;
           rows <- select_business id ;;
           row <- one_or_none rows ;;
           match row with
           | None =>
               return_ (PDict (generate_not_found_message BUSINESSES BUSINESS_ID), 404)
           | Some _ =>
               rows <- select_reviews_of_business id ;;
               row <- one_or_none rows ;;
               duplicate <-
                 match row with
                 | Some review =>
                     v_user_id <- item content "user_id" ;;
                     ret (Py.eq_int (user_id review) v_user_id)
                 | None => ret false
                 end ;;
               if (duplicate : bool) then
                 return_ (PDict [("Error", PStr "You have already submitted a review for this business. You can update your previous review, or delete it and submit a new review")],
                          409)
               else
                 v_user_id <- item content "user_id" ;;
                 v_business_id <- item content "business_id" ;;
                 v_stars <- item content "stars" ;;
                 (if (has_review_text : bool) then
                    v_review_text <- item content "review_text" ;;
                    insert_review v_user_id v_business_id v_stars (Some v_review_text)
                  else
                    insert_review v_user_id v_business_id v_stars None) ;;
                 review_id <- select_last_insert_id ;;
                 commit ;;
                 ret review_id
           end))
        (fun e => return_ (PDict [("Error", PStr "Unable to create review")], 500)) ;;
    v_user_id <- item content "user_id" ;;
    v_business_id <- item content "business_id" ;;
    v_stars <- item content "stars" ;;
    if (has_review_text : bool) then
      v_review_text <- item content "review_text" ;;
      return_ (PDict [("id", PInt review_id);
                      ("user_id", v_user_id);
                      ("business_id", v_business_id);
                      ("stars", v_stars);
                      ("review_text", v_review_text);
                      ("self", PStr (generate_self_url (http_base_url request) review_id))],
               201)
    else
      return_ (PDict [("id", PInt review_id);
                      ("user_id", v_user_id);
                      ("business_id", v_business_id);
                      ("stars", v_stars);
                      ("self", PStr (generate_self_url (http_base_url request) review_id))],
               201).

Definition put_review (request : HttpRequest) (id : Z) : M unit :=
  content <- get_json request ;;
  has_stars <- lift (contains content "stars") ;;
  if negb has_stars then return_ (PDict POST_PUT_ERROR, 400)
  else
    has_review_text <- lift (contains content "review_text") ;;
    with_connect (
      rows <- select_review (PInt id) ;;
      row <- one_or_none rows ;;
      match row with
      | None => return_ (PDict (generate_not_found_message REVIEWS REVIEW_ID), 404)
      | Some row =>
          v_stars <- item content "stars" ;;
          (if (has_review_text : bool) then
             v_review_text <- item content "review_text" ;;
             update_review v_stars (Some v_review_text) (PInt id)
           else
             update_review v_stars None (PInt id)) ;;
          commit ;;
          let business_id := review_business_id row in
          let row := review_asdict row in
          let row := Py.setitem row "stars" v_stars in
          let row := Py.setitem row "business"
                       (PStr (generate_self_url (http_base_url request) business_id)) in
          let row := Py.delitem row "business_id" in
          row <- (if (has_review_text : bool) then
                    v_review_text <- item content "review_text" ;;
                    ret (Py.setitem row "review_text" v_review_text)
                  else ret row) ;;
          let row := Py.setitem row "self"
                       (PStr (generate_self_url (http_base_url request) id)) in
          return_ (PDict row, 200)
      end).

(** The two DELETE handlers do not read the body. *)
Definition dispatch (route : write_route) (request : HttpRequest) : M unit :=
  match route with
  | POST_businesses => post_business request
  | PUT_businesses id => put_business request id
  | DELETE_businesses id => delete_business (with_object request []) id
  | POST_reviews => post_review request
  | PUT_reviews id => put_review request id
  | DELETE_reviews id => delete_review (with_object request []) id
  end.

End Handlers.

(** The status the client sees: Flask answers an abort with its code and
    any other exception with 500. *)
Definition status_of (o : outcome) : Z :=
  match o with
  | Responded _ status => status
  | Failed (HTTPException code) => code
  | Failed _ => 500
  end.

End Http.

(** ** Sample data *)

Module Sample.

Definition business (id owner : Z) : Business :=
  mkBusiness id owner "A" "1 Main" "X" "CA" 90001.


(** Three businesses, no review. *)
Definition three : Database :=
  mkDatabase [business 1 7; business 2 8; business 3 7] [] 4 1.

(** Business 5 has no review, business 2 has review 7. *)
Definition five : Database :=
  mkDatabase
    [business 1 7; business 2 8; business 3 7; business 4 1; business 5 1]
    [mkReview 7 3 2 3 (Some "ok")] 6 8.

(** Business 5 alone, without a review. *)
Definition lonely : Database := mkDatabase [business 5 1] [] 6 1.

(** Business 5 has two reviews, the first one by user 1. *)
Definition crowded : Database :=
  mkDatabase
    [business 5 1]
    [mkReview 1 1 5 4 None; mkReview 2 2 5 3 None] 6 3.

Definition get (u : string) : Request := mkRequest u u [].

Definition send (u : string) (content : dict) : Request := mkRequest u u content.

Definition review_by (user stars : Z) : dict :=
  [("user_id", PInt user); ("business_id", PInt 5); ("stars", PInt stars)].

(** A request with the JSON value [v] as its body. *)
Definition upload (u : string) (v : pyval) : HttpRequest :=
  mkHttpRequest u u (Json v).

(** A complete business payload. *)
Definition shop : dict :=
  [("owner_id", PInt 1); ("name", PStr "A"); ("street_address", PStr "1 Main");
   ("city", PStr "X"); ("state", PStr "CA"); ("zip_code", PInt 90001)].

End Sample.

(** ** Vocabulary of the statements *)

(** One entry of the listing: the row's columns and its [self] link. *)
Definition entry_of (request : Request) (row : Business) : dict :=
  business_asdict row
    ++ [("self", PStr (generate_self_url (base_url request) (business_id row)))].

(** The status codes of the validation and of the not-found answers. *)
Definition is_error {A : Type} (c : ctl A) : Prop :=
  match c with
  | Return (_, status) => status = 400 \/ status = 404
  | _ => False
  end.

(** Nothing was written since the request found the database [db]. *)
Definition clean (db : Database) (w : world) : Prop :=
  committed w = db /\ working w = db
  /\ Forall (fun s => mutating s = false) (executed w).

(** [m] leaves a clean state clean, however it ends. *)
Definition reads {A : Type} (m : M A) : Prop :=
  forall db w c w', clean db w -> m w = (c, w') -> clean db w'.

(** [m] never ends in a validation or not-found answer. *)
Definition loud {A : Type} (m : M A) : Prop :=
  forall w c w', m w = (c, w') -> ~ is_error c.

(** When [m] ends in a validation or not-found answer, the state is still
    clean. *)
Definition safe {A : Type} (m : M A) : Prop :=
  forall db w c w', clean db w -> m w = (c, w') -> is_error c -> clean db w'.

(** What [UPDATE reviews SET stars = s[, review_text = t] WHERE
    review_id = id] makes of a row; [t] is [None] when the statement does
    not set the text. *)
Definition restar (id s : Z) (t : option (option string)) (x : Review) : Review :=
  if review_id x =? id
  then mkReview (review_id x) (user_id x) (review_business_id x) s
         (match t with Some t' => t' | None => review_text x end)
  else x.

(** The rows that [SELECT * FROM reviews WHERE business_id=:business_id]
    finds for the parameter [p]. *)
Definition reviews_of {E : Engine} (db : Database) (p : pyval) : list Review :=
  filter (fun r => param_eq (review_business_id r) p) (reviews db).

(** The rows that the SELECT on [businesses] finds for the parameter [p]. *)
Definition businesses_with {E : Engine} (db : Database) (p : pyval) : list Business :=
  filter (fun b => param_eq (business_id b) p) (businesses db).

(** The engine stores [x] for the value that the payload has under [key]. *)
Definition stored {E : Engine} {A : Type} (conv : pyval -> option A)
    (content : dict) (key : string) (x : A) : Prop :=
  exists v, Py.getitem content key = Some v /\ conv v = Some x.

(** The columns of [b], its key apart, are what the engine stores for the
    payload [content]. *)
Definition stores_business {E : Engine} (content : dict) (b : Business) : Prop :=
  stored to_int content "owner_id" (owner_id b)
  /\ stored (to_varchar 50) content "name" (name b)
  /\ stored (to_varchar 100) content "street_address" (street_address b)
  /\ stored (to_varchar 50) content "city" (city b)
  /\ stored (to_varchar 2) content "state" (state b)
  /\ stored to_int content "zip_code" (zip_code b).

(** The same for a review; a payload without [review_text] gives NULL. *)
Definition stores_review {E : Engine} (content : dict) (r : Review) : Prop :=
  stored to_int content "user_id" (user_id r)
  /\ stored to_bigint content "business_id" (review_business_id r)
  /\ stored to_int content "stars" (stars r)
  /\ match Py.getitem content "review_text" with
     | Some v => to_varchar_null 1000 v = Some (review_text r)
     | None => review_text r = None
     end.

(** The attributes a writing route checks before it connects. *)
Definition required_attributes (route : write_route) : list string :=
  match route with
  | POST_businesses | PUT_businesses _ => BUSINESSES_REQUIRED_ATTRIBUTES
  | POST_reviews => REVIEWS_REQUIRED_ATTRIBUTES
  | PUT_reviews _ => ["stars"]
  | DELETE_businesses _ | DELETE_reviews _ => []
  end.

(** What the engine stores for the value under [key], if the payload has
    the key and the engine takes the value. *)
Definition convert {E : Engine} {A : Type} (conv : pyval -> option A)
    (content : dict) (key : string) : option A :=
  match Py.getitem content key with
  | Some v => conv v
  | None => None
  end.

(** The row with key [id] that the engine makes of a business payload. *)
Definition converted_business {E : Engine} (content : dict) (id : Z)
    : option Business :=
  match convert to_int content "owner_id",
        convert (to_varchar 50) content "name",
        convert (to_varchar 100) content "street_address",
        convert (to_varchar 50) content "city",
        convert (to_varchar 2) content "state",
        convert to_int content "zip_code" with
  | Some o, Some n, Some a, Some c, Some s, Some z =>
      Some (mkBusiness id o n a c s z)
  | _, _, _, _, _, _ => None
  end.

(** The values of the payload under [keys], as a body echoes them. *)
Definition echo (content : dict) (keys : list string) : dict :=
  map (fun key => (key, match Py.getitem content key with
                        | Some v => v
                        | None => PNone
                        end)) keys.

(** [UPDATE businesses ... WHERE business_id = id] with the row [new]. *)
Definition replace_business (id : Z) (new : Business) (b : Business) : Business :=
  if business_id b =? id then new else b.

(** The base URL up to its last occurrence of "users", the earlier
    occurrences left out: what [get_users_reviews] puts before
    [reviews/<id>] and [businesses/<id>]. *)
Definition site (request : Request) : string :=
  Py.join (removelast (split_on (base_url request) "users")).

(** An entry of the list of a user's reviews. *)
Definition users_entry (request : Request) (r : Review) : dict :=
  [("user_id", PInt (user_id r));
   ("stars", PInt (stars r));
   ("review_text", match review_text r with Some s => PStr s | None => PNone end);
   ("self", PStr (site request ++ "reviews/" ++ Py.str (review_id r))%string);
   ("business",
    PStr (site request ++ "businesses/" ++ Py.str (review_business_id r))%string);
   ("id", PInt (review_id r))].


(** * Properties *)

(** ** Python helpers *)

Example str_examples :
  Py.str 0 = "0" /\ Py.str 42 = "42" /\ Py.str (-7) = "-7".
Proof. repeat split; reflexivity. Qed.

Example split_examples :
  Py.split "http://h/businesses?offset=1&limit=2" "/"
    = ["http:"; EmptyString; "h"; "businesses?offset=1&limit=2"]
  /\ Py.split "http://h/businesses" "?" = ["http://h/businesses"]
  /\ Py.split "a&&b&" "&" = ["a"; EmptyString; "b"; EmptyString].
Proof. repeat split; reflexivity. Qed.

Lemma split_from_not_nil sep acc s : Py.split_from sep acc s <> [].
Proof.
  revert acc; induction s as [|c s IH]; intros acc; simpl.
  - discriminate.
  - destruct (Ascii.eqb c sep); [discriminate | apply IH].
Qed.

Lemma last_item_some {A : Type} (l : list A) :
  l <> [] -> exists x, Py.last_item l = Some x.
Proof.
  induction l as [|a l IH]; intros H; [congruence|].
  destruct l as [|b l]; [exists a; reflexivity|].
  destruct IH as [x Hx]; [discriminate|].
  exists x. exact Hx.
Qed.

Lemma split_has_last s sep : exists x, Py.last_item (Py.split s sep) = Some x.
Proof. apply last_item_some, split_from_not_nil. Qed.

Lemma contains_getitem d k :
  Py.contains d k = true -> exists v, Py.getitem d k = Some v.
Proof.
  induction d as [|[k' v'] d IH]; simpl; [discriminate|].
  destruct (String.eqb k k'); eauto.
Qed.

Lemma getitem_contains d k v :
  Py.getitem d k = Some v -> Py.contains d k = true.
Proof.
  induction d as [|[k' v'] d IH]; simpl; [discriminate|].
  destruct (String.eqb k k'); auto.
Qed.

Lemma validate_business_post_put_true content attributes :
  validate_business_post_put content attributes = true <->
  Forall (fun key => Py.contains content key = true) attributes.
Proof.
  induction attributes as [|key attributes IH]; simpl.
  - split; auto.
  - destruct (Py.contains content key) eqn:Hk; simpl.
    + rewrite IH. split; [auto | inversion 1; auto].
    + split; [discriminate | inversion 1; congruence].
Qed.

Lemma filter_none {A : Type} (f : A -> bool) (l : list A) :
  (forall x, In x l -> f x = false) -> filter f l = [].
Proof.
  induction l as [|a l IH]; intros H; simpl; [reflexivity|].
  rewrite (H a (or_introl eq_refl)). apply IH. intros x Hx. apply H. now right.
Qed.

(** ** GET /businesses *)

Lemma last_item_cons {A : Type} (x : A) (l : list A) :
  Py.last_item (x :: l)
  = match Py.last_item l with Some y => Some y | None => Some x end.
Proof.
  destruct l as [|a l]; [reflexivity|].
  destruct (last_item_some (a :: l)) as [y Hy]; [discriminate|].
  rewrite Hy. exact Hy.
Qed.

Lemma list_businesses_from request rows done last :
  fold_left
    (fun acc row =>
       let business := business_asdict row in
       let id := business_id row in
       let business :=
         Py.setitem business "self" (PStr (generate_self_url (base_url request) id)) in
       (fst acc ++ [business], Some business))
    rows (done, last)
  = (done ++ map (entry_of request) rows,
     match Py.last_item (map (entry_of request) rows) with
     | Some business => Some business
     | None => last
     end).
Proof.
  revert done last; induction rows as [|row rows IH]; intros done last.
  - simpl. now rewrite app_nil_r.
  - cbn [fold_left map]. rewrite last_item_cons.
    cbn [fst]. rewrite IH. rewrite <- app_assoc.
    change (Py.setitem (business_asdict row) "self"
              (PStr (generate_self_url (base_url request) (business_id row))))
      with (entry_of request row).
    simpl. now destruct (Py.last_item (map (entry_of request) rows)).
Qed.

Lemma list_businesses_entries request rows :
  list_businesses request rows
  = (map (entry_of request) rows, Py.last_item (map (entry_of request) rows)).
Proof.
  unfold list_businesses. rewrite list_businesses_from. simpl.
  now destruct (Py.last_item (map (entry_of request) rows)).
Qed.

Lemma last_item_in {A : Type} (l : list A) x : Py.last_item l = Some x -> In x l.
Proof.
  induction l as [|a l IH]; simpl; [discriminate|].
  destruct l as [|b l]; [intros [= ->]; now left | intros H; right; auto].
Qed.

(** Every entry has the seven columns and [self]: eight keys. *)
Lemma len_entry_of request row : Py.len (entry_of request row) = 8.
Proof. reflexivity. Qed.

(** Without a query string the handler selects the window of the defaults,
    and what it answers depends on the dict of the last row only. *)
Lemma get_businesses_default {E : Engine} request db :
  Py.last_item (Py.split (url request) "/") = Some BUSINESSES ->
  run (get_businesses request) db
  = mkResult
      (match page db 3 0 with
       | [] => Failed UnboundLocalError
       | rows =>
           Responded
             (PDict [("entries", PList (map PDict (map (entry_of request) rows)))])
             200
       end)
      db [Select].
Proof.
  intros Hlast. unfold run, get_businesses, with_connect, bind, or_raise.
  rewrite Hlast. cbn -[page list_businesses Py.split Py.str].
  rewrite list_businesses_entries.
  destruct (page db 3 0) as [|row rows] eqn:Hp.
  - reflexivity.
  - destruct (last_item_some (map (entry_of request) (row :: rows))) as [b Hb];
      [discriminate|].
    rewrite Hb. apply last_item_in, in_map_iff in Hb. destruct Hb as [r [<- _]].
    reflexivity.
Qed.

(** With anything after [businesses] in the last segment, the handler calls
    [split] on a list and stops before it reaches the database. *)
Lemma get_businesses_query {E : Engine} request db last :
  Py.last_item (Py.split (url request) "/") = Some last ->
  last <> BUSINESSES ->
  run (get_businesses request) db = mkResult (Failed AttributeError) db [].
Proof.
  intros Hlast Hne. unfold run, get_businesses, bind, or_raise.
  rewrite Hlast. apply String.eqb_neq in Hne. cbn -[Py.split]. rewrite Hne.
  reflexivity.
Qed.

Lemma length_insert_by_business_id b l :
  List.length (insert_by_business_id b l) = S (List.length l).
Proof.
  induction l as [|x l IH]; simpl; [reflexivity|].
  destruct (business_id b <=? business_id x); simpl; [reflexivity | now rewrite IH].
Qed.

Lemma length_order_by_business_id l :
  List.length (order_by_business_id l) = List.length l.
Proof.
  induction l as [|b l IH]; simpl; [reflexivity|].
  now rewrite length_insert_by_business_id, IH.
Qed.


Lemma page_beyond_table db limit offset :
  (List.length (businesses db) <= Z.to_nat offset)%nat -> page db limit offset = [].
Proof.
  intros H. unfold page. rewrite skipn_all2; [apply firstn_nil|].
  now rewrite length_order_by_business_id.
Qed.

(** No answer of the listing has a [next] link: the test compares the
    eight keys of a row's dict with the limit, which is 3 whenever the
    handler gets that far. *)
Lemma get_businesses_never_next {E : Engine} request db body status :
  answer (run (get_businesses request) db) = Responded (PDict body) status ->
  Py.contains body "next" = false.
Proof.
  destruct (split_has_last (url request) "/") as [last Hlast].
  destruct (String.eqb_spec last BUSINESSES) as [-> | Hne].
  - rewrite (get_businesses_default _ _ Hlast). simpl.
    destruct (page db 3 0); [discriminate|]. now intros [= <- _].
  - rewrite (get_businesses_query _ _ _ Hlast Hne). discriminate.
Qed.

(** The entries of an answer are a page of at most three rows. *)
Lemma get_businesses_at_most_three {E : Engine} request db entries status :
  answer (run (get_businesses request) db)
  = Responded (PDict [("entries", PList entries)]) status ->
  (List.length entries <= 3)%nat.
Proof.
  destruct (split_has_last (url request) "/") as [last Hlast].
  destruct (String.eqb_spec last BUSINESSES) as [-> | Hne].
  - rewrite (get_businesses_default _ _ Hlast). simpl.
    assert (Hle : (List.length (page db 3 0) <= 3)%nat).
    { unfold page. rewrite length_firstn. apply Nat.le_min_l. }
    destruct (page db 3 0) as [|row rows]; [discriminate|].
    intros [= <- _]. simpl in *. now rewrite !length_map.
  - rewrite (get_businesses_query _ _ _ Hlast Hne). discriminate.
Qed.

(** C1, at a table of three businesses and the default limit 3: the
    listing returns exactly three entries, a full page, and its answer
    has the key [entries] only, so the [next] link the claim requires for
    a full page is missing. *)
Theorem get_businesses_full_page_without_next :
  exists entries,
    answer (run (get_businesses (Sample.get "http://localhost:8080/businesses"))
              Sample.three)
    = Responded (PDict [("entries", PList entries)]) 200
    /\ List.length entries = 3%nat.
Proof. eexists. split; reflexivity. Qed.

(** C7, at a request with a query string: the handler raises
    [AttributeError] before any statement is executed, so no listing over
    the window offset 1, limit 2 is computed. *)
Theorem get_businesses_query_string_raises :
  run (get_businesses
         (mkRequest "http://localhost:8080/businesses?offset=1&limit=2"
            "http://localhost:8080/businesses" []))
    Sample.three
  = mkResult (Failed AttributeError) Sample.three [].
Proof. reflexivity. Qed.





(** ** A body that is a JSON object *)

Lemma run_pointwise (h1 h2 : M unit) db :
  (forall w, h1 w = h2 w) -> run h1 db = run h2 db.
Proof. intros H. unfold run. now rewrite H. Qed.

(** On an object the membership test looks for a key, and the validation
    is the loop over the dict. *)
Lemma validate_on_object content attributes :
  Http.validate_business_post_put (PDict content) attributes
  = inr (validate_business_post_put content attributes).
Proof.
  induction attributes as [|key attributes IH]; simpl; [reflexivity|].
  destruct (Py.contains content key); simpl; [exact IH | reflexivity].
Qed.

(** On a list it looks for an element, on a string for a substring. *)
Lemma validate_on_list l attributes :
  Http.validate_business_post_put (PList l) attributes
  = inr (forallb (fun key => existsb (Http.is_str key) l) attributes).
Proof.
  induction attributes as [|key attributes IH]; simpl; [reflexivity|].
  now destruct (existsb (Http.is_str key) l).
Qed.

Lemma validate_on_string s attributes :
  Http.validate_business_post_put (PStr s) attributes
  = inr (forallb (fun key => mentions key s) attributes).
Proof.
  induction attributes as [|key attributes IH]; simpl; [reflexivity|].
  now destruct (mentions key s).
Qed.

(** The validation raises nothing but the [TypeError] of [in]. *)
Lemma validate_raises_type_error v attributes e :
  Http.validate_business_post_put v attributes = inl e -> e = TypeError.
Proof.
  induction attributes as [|key attributes IH]; simpl; [discriminate|].
  destruct (Http.contains v key) as [e' | [|]] eqn:Hk; [|exact IH | discriminate].
  intros [= <-]. destruct v; simpl in Hk; congruence.
Qed.

Lemma post_business_on_object {E : Engine} request content w :
  http_body request = Json (PDict content) ->
  Http.post_business request w = post_business (with_object request content) w.
Proof.
  intros Hbody. unfold Http.post_business, Http.get_json, post_business.
  rewrite Hbody. unfold bind at 1. unfold ret at 1.
  rewrite validate_on_object. reflexivity.
Qed.

Lemma put_business_on_object {E : Engine} request content id w :
  http_body request = Json (PDict content) ->
  Http.put_business request id w = put_business (with_object request content) id w.
Proof.
  intros Hbody. unfold Http.put_business, Http.get_json, put_business.
  rewrite Hbody. unfold bind at 1. unfold ret at 1.
  rewrite validate_on_object. reflexivity.
Qed.

Lemma post_review_on_object {E : Engine} request content w :
  http_body request = Json (PDict content) ->
  Http.post_review request w = post_review (with_object request content) w.
Proof.
  intros Hbody. unfold Http.post_review, Http.get_json, post_review.
  rewrite Hbody. unfold bind at 1. unfold ret at 1.
  rewrite validate_on_object. reflexivity.
Qed.

Lemma put_review_on_object {E : Engine} request content id w :
  http_body request = Json (PDict content) ->
  Http.put_review request id w = put_review (with_object request content) id w.
Proof.
  intros Hbody. unfold Http.put_review, Http.get_json, put_review.
  rewrite Hbody. reflexivity.
Qed.

Lemma dispatch_on_object {E : Engine} route request content w :
  http_body request = Json (PDict content) ->
  Http.dispatch route request w = dispatch route (with_object request content) w.
Proof.
  intros Hbody. destruct route; simpl.
  - now apply post_business_on_object.
  - now apply put_business_on_object.
  - reflexivity.
  - now apply post_review_on_object.
  - now apply put_review_on_object.
  - reflexivity.
Qed.

(** ** PUT /businesses/{id} *)

Lemma no_row_with_id {E : Engine} {A : Type} (key : A -> Z) (l : list A) id :
  (forall x, In x l -> key x <> id) ->
  filter (fun x => param_eq (key x) (PInt id)) l = [].
Proof.
  intros H. apply filter_none. intros x Hx. rewrite param_eq_int.
  apply Z.eqb_neq. auto.
Qed.

Lemma validate_business_post_put_forallb content attributes :
  validate_business_post_put content attributes
  = forallb (Py.contains content) attributes.
Proof.
  induction attributes as [|key attributes IH]; simpl; [reflexivity|].
  now destruct (Py.contains content key).
Qed.

(** C3, at an id that no business has and an object without attributes:
    the validation comes first and answers 400, not 404. *)
Lemma put_business_invalid_payload_on_missing_id :
  (forall b, In b (businesses Sample.three) -> business_id b <> 77)
  /\ run (Http.put_business
            (Sample.upload "http://localhost:8080/businesses/77" (PDict [])) 77)
       Sample.three
     = mkResult (Responded (PDict POST_PUT_ERROR) 400) Sample.three []
  /\ Http.status_of
       (answer (run (Http.put_business
                       (Sample.upload "http://localhost:8080/businesses/77" (PDict []))
                       77)
                  Sample.three)) <> 404.
Proof.
  split; [|split; [reflexivity | discriminate]].
  simpl. intros b [<- | [<- | [<- | []]]]; discriminate.
Qed.

(** On an id that no business row has, what PUT answers is decided by the
    body alone; the database is as it was. *)
Lemma put_business_absent {E : Engine} request id db :
  (forall b, In b (businesses db) -> business_id b <> id) ->
  run (Http.put_business request id) db
  = match http_body request with
    | NoJson => mkResult (Failed (HTTPException 415)) db []
    | BadJson => mkResult (Failed (HTTPException 400)) db []
    | Json v =>
        match Http.validate_business_post_put v BUSINESSES_REQUIRED_ATTRIBUTES with
        | inl _ => mkResult (Failed TypeError) db []
        | inr false => mkResult (Responded (PDict POST_PUT_ERROR) 400) db []
        | inr true =>
            mkResult
              (Responded (PDict (generate_not_found_message BUSINESSES BUSINESS_ID)) 404)
              db [Select]
        end
    end.
Proof.
  intros Habsent. unfold run, Http.put_business, Http.get_json.
  destruct (http_body request) as [| |v]; [reflexivity | reflexivity |].
  unfold bind at 1. unfold ret at 1. unfold bind at 1.
  destruct (Http.validate_business_post_put v BUSINESSES_REQUIRED_ATTRIBUTES)
    as [e | [|]] eqn:Hvalid.
  - apply validate_raises_type_error in Hvalid. now subst e.
  - unfold with_connect, bind, select_business, query.
    cbn -[filter]. now rewrite (no_row_with_id business_id _ _ Habsent).
  - reflexivity.
Qed.

(** C3 as amended: on an id that no business row has, the validation of
    the body decides the answer of PUT.  A JSON object is answered 404
    when it has all six required attributes and 400 when it misses one; a
    JSON list or string goes through the same membership test; on null or a
    number the test raises [TypeError], answered 500; without a JSON body
    Flask aborts with 415, on a body that does not parse with 400.  The
    database is as it was in every case. *)
Theorem put_business_on_missing_id {E : Engine} request id db :
  (forall b, In b (businesses db) -> business_id b <> id) ->
  Http.status_of (answer (run (Http.put_business request id) db))
  = match http_body request with
    | NoJson => 415
    | BadJson => 400
    | Json v =>
        match Http.validate_business_post_put v BUSINESSES_REQUIRED_ATTRIBUTES with
        | inl _ => 500
        | inr false => 400
        | inr true => 404
        end
    end
  /\ database (run (Http.put_business request id) db) = db
  /\ (forall content,
        http_body request = Json (PDict content) ->
        Http.status_of (answer (run (Http.put_business request id) db))
        = if forallb (Py.contains content)
               ["owner_id"; "name"; "street_address"; "city"; "state"; "zip_code"]
          then 404 else 400)
  /\ (forall l,
        http_body request = Json (PList l) ->
        Http.status_of (answer (run (Http.put_business request id) db))
        = if forallb (fun key => existsb (Http.is_str key) l)
               ["owner_id"; "name"; "street_address"; "city"; "state"; "zip_code"]
          then 404 else 400)
  /\ (forall s,
        http_body request = Json (PStr s) ->
        Http.status_of (answer (run (Http.put_business request id) db))
        = if forallb (fun key => mentions key s)
               ["owner_id"; "name"; "street_address"; "city"; "state"; "zip_code"]
          then 404 else 400)
  /\ (forall v,
        http_body request = Json v ->
        v = PNone \/ (exists z, v = PInt z) ->
        answer (run (Http.put_business request id) db) = Failed TypeError).
Proof.
  intros Habsent. rewrite (put_business_absent _ _ _ Habsent).
  split; [|split; [|split; [|split; [|split]]]].
  - destruct (http_body request) as [| |v]; [reflexivity | reflexivity |].
    now destruct (Http.validate_business_post_put v BUSINESSES_REQUIRED_ATTRIBUTES)
      as [e | [|]].
  - destruct (http_body request) as [| |v]; [reflexivity | reflexivity |].
    now destruct (Http.validate_business_post_put v BUSINESSES_REQUIRED_ATTRIBUTES)
      as [e | [|]].
  - intros content ->. rewrite validate_on_object, validate_business_post_put_forallb.
    change BUSINESSES_REQUIRED_ATTRIBUTES
      with ["owner_id"; "name"; "street_address"; "city"; "state"; "zip_code"].
    now destruct (forallb _ _).
  - intros l ->. rewrite validate_on_list.
    change BUSINESSES_REQUIRED_ATTRIBUTES
      with ["owner_id"; "name"; "street_address"; "city"; "state"; "zip_code"].
    now destruct (forallb _ _).
  - intros s ->. rewrite validate_on_string.
    change BUSINESSES_REQUIRED_ATTRIBUTES
      with ["owner_id"; "name"; "street_address"; "city"; "state"; "zip_code"].
    now destruct (forallb _ _).
  - intros v -> [-> | [z ->]]; reflexivity.
Qed.

Lemma put_business_on_missing_id_witness :
  Http.status_of
    (answer (run (Http.put_business
                    (Sample.upload "http://localhost:8080/businesses/77"
                       (PDict Sample.shop)) 77)
               Sample.three)) = 404.
Proof.
  assert (Habsent : forall b, In b (businesses Sample.three) -> business_id b <> 77).
  { simpl. intros b [<- | [<- | [<- | []]]]; discriminate. }
  exact (proj1 (put_business_on_missing_id (E := mysql_strict)
                  (Sample.upload "http://localhost:8080/businesses/77"
                     (PDict Sample.shop)) 77 Sample.three Habsent)).
Defined.

Example put_on_missing_id_by_body :
  let put v :=
    answer (run (Http.put_business
                   (Sample.upload "http://localhost:8080/businesses/77" v) 77)
              Sample.three) in
  put PNone = Failed TypeError
  /\ put (PInt 3) = Failed TypeError
  /\ Http.status_of (put (PStr "owner_id name street_address city state zip_code")) = 404
  /\ Http.status_of (put (PStr "owner_id")) = 400
  /\ Http.status_of
       (put (PList [PStr "owner_id"; PStr "name"; PStr "street_address";
                    PStr "city"; PStr "state"; PStr "zip_code"])) = 404
  /\ Http.status_of (put (PList [PStr "owner_id"])) = 400.
Proof. repeat split; reflexivity. Qed.

(** ** POST /reviews on a business that does not exist *)

(** C4: a payload with [user_id], [business_id] and [stars] whose
    [business_id] matches no business row is answered 404 with the
    business message; the only statement executed is the SELECT on
    [businesses], and the database, its reviews included, is as it was. *)
Theorem post_review_unknown_business {E : Engine} request db v :
  Py.contains (get_json request) "user_id" = true ->
  Py.getitem (get_json request) "business_id" = Some v ->
  Py.contains (get_json request) "stars" = true ->
  (forall b, In b (businesses db) -> param_eq (business_id b) v = false) ->
  run (post_review request) db
  = mkResult
      (Responded (PDict [("Error", PStr "No business with this business_id exists")]) 404)
      db [Select].
Proof.
  intros Hu Hb Hs Hnone.
  unfold run, post_review, try_except, with_connect, bind, item, or_raise,
    select_business, query.
  cbn [validate_business_post_put REVIEWS_REQUIRED_ATTRIBUTES].
  rewrite Hu, (getitem_contains _ _ _ Hb), Hs, Hb. cbn -[filter].
  rewrite (filter_none _ _ Hnone). reflexivity.
Qed.

Lemma post_review_unknown_business_witness :
  status_of
    (answer (run (post_review
                    (Sample.send "http://localhost:8080/reviews"
                       [("user_id", PInt 1); ("business_id", PInt 9);
                        ("stars", PInt 4)]))
               Sample.five)) = 404
  /\ reviews
       (database (run (post_review
                         (Sample.send "http://localhost:8080/reviews"
                            [("user_id", PInt 1); ("business_id", PInt 9);
                             ("stars", PInt 4)]))
                    Sample.five)) = reviews Sample.five.
Proof.
  rewrite (post_review_unknown_business
             (Sample.send "http://localhost:8080/reviews"
                [("user_id", PInt 1); ("business_id", PInt 9); ("stars", PInt 4)])
             Sample.five (PInt 9)).
  - split; reflexivity.
  - reflexivity.
  - reflexivity.
  - reflexivity.
  - simpl. intros b [<- | [<- | [<- | [<- | [<- | []]]]]]; reflexivity.
Defined.

(** ** Validation and not-found answers write nothing *)

Create HintDb handler.

Lemma reads_safe {A : Type} (m : M A) : reads m -> safe m.
Proof. intros H db w c w' Hc Hm _. exact (H db w c w' Hc Hm). Qed.

Lemma loud_safe {A : Type} (m : M A) : loud m -> safe m.
Proof. intros H db w c w' _ Hm He. now apply H in Hm. Qed.

Lemma reads_ret {A : Type} (a : A) : reads (ret a).
Proof. intros db w c w' Hc [= <- <-]. exact Hc. Qed.

Lemma reads_return {A : Type} r : reads (@return_ A r).
Proof. intros db w c w' Hc [= <- <-]. exact Hc. Qed.

Lemma reads_raise {A : Type} e : reads (@raise A e).
Proof. intros db w c w' Hc [= <- <-]. exact Hc. Qed.

Lemma reads_or_raise {A : Type} e (o : option A) : reads (or_raise e o).
Proof. destruct o; [apply reads_ret | apply reads_raise]. Qed.

Lemma reads_one_or_none {A : Type} (rows : list A) : reads (one_or_none rows).
Proof.
  destruct rows as [|x [|y rows]]; [apply reads_ret | apply reads_ret | apply reads_raise].
Qed.

Lemma reads_query {A : Type} (f : Database -> A) : reads (query f).
Proof.
  intros db w c w' (Hc & Hw & Hl) [= <- <-]. repeat split; simpl; auto.
  apply Forall_app. split; [assumption | now constructor].
Qed.

Lemma reads_bind {A B : Type} (m : M A) (k : A -> M B) :
  reads m -> (forall a, reads (k a)) -> reads (bind m k).
Proof.
  intros Hm Hk db w c w' Hc. unfold bind.
  destruct (m w) as [[a | r | e] w1] eqn:E; specialize (Hm _ _ _ _ Hc E).
  - intros Hka. exact (Hk a db w1 c w' Hm Hka).
  - now intros [= <- <-].
  - now intros [= <- <-].
Qed.

Lemma loud_ret {A : Type} (a : A) : loud (ret a).
Proof. intros w c w' [= <- <-]. simpl. tauto. Qed.

Lemma loud_raise {A : Type} e : loud (@raise A e).
Proof. intros w c w' [= <- <-]. simpl. tauto. Qed.

Lemma loud_return {A : Type} body status :
  status <> 400 -> status <> 404 -> loud (@return_ A (body, status)).
Proof. intros H0 H4 w c w' [= <- <-]. simpl. tauto. Qed.

Lemma loud_or_raise {A : Type} e (o : option A) : loud (or_raise e o).
Proof. destruct o; [apply loud_ret | apply loud_raise]. Qed.

Lemma loud_query {A : Type} (f : Database -> A) : loud (query f).
Proof. intros w c w' [= <- <-]. simpl. tauto. Qed.

Lemma loud_modify s f : loud (modify s f).
Proof.
  intros w c w'. unfold modify.
  destruct (f (working w) (last_insert_id w)) as [[db id]|];
    intros [= <- <-]; simpl; tauto.
Qed.

Lemma loud_commit : loud commit.
Proof. intros w c w' [= <- <-]. simpl. tauto. Qed.

Lemma loud_bind {A B : Type} (m : M A) (k : A -> M B) :
  loud m -> (forall a, loud (k a)) -> loud (bind m k).
Proof.
  intros Hm Hk w c w'. unfold bind.
  destruct (m w) as [[a | r | e] w1] eqn:E; specialize (Hm _ _ _ E).
  - apply Hk.
  - now intros [= <- <-].
  - now intros [= <- <-].
Qed.

Lemma safe_bind {A B : Type} (m : M A) (k : A -> M B) :
  reads m -> (forall a, safe (k a)) -> safe (bind m k).
Proof.
  intros Hm Hk db w c w' Hc. unfold bind.
  destruct (m w) as [[a | r | e] w1] eqn:E; specialize (Hm _ _ _ _ Hc E).
  - intros Hka. exact (Hk a db w1 c w' Hm Hka).
  - now intros [= <- <-].
  - now intros [= <- <-].
Qed.

Lemma with_connect_clean db w :
  clean db w ->
  clean db (mkWorld (committed w) (committed w) (last_insert_id w) (executed w)).
Proof. intros (Hc & Hw & Hl). repeat split; simpl; auto. Qed.

Lemma safe_with_connect {A : Type} (m : M A) : safe m -> safe (with_connect m).
Proof.
  intros Hm db w c w' Hc. unfold with_connect.
  destruct (m w) as [c1 w1] eqn:E. intros [= <- <-] He.
  apply with_connect_clean. exact (Hm db w c1 w1 Hc E He).
Qed.

Lemma loud_with_connect {A : Type} (m : M A) : loud m -> loud (with_connect m).
Proof.
  intros Hm w c w'. unfold with_connect.
  destruct (m w) as [c1 w1] eqn:E. intros [= <- <-]. exact (Hm w c1 w1 E).
Qed.

Lemma loud_try_except {A : Type} (m : M A) h :
  loud m -> (forall e, loud (h e)) -> loud (try_except m h).
Proof.
  intros Hm Hh w c w'. unfold try_except.
  destruct (m w) as [[a | r | e] w1] eqn:E; specialize (Hm _ _ _ E).
  - now intros [= <- <-].
  - now intros [= <- <-].
  - apply Hh.
Qed.

Lemma safe_try_except {A : Type} (m : M A) h :
  safe m -> (forall e, loud (h e)) -> safe (try_except m h).
Proof.
  intros Hm Hh db w c w' Hc. unfold try_except.
  destruct (m w) as [[a | r | e] w1] eqn:E; specialize (Hm _ _ _ _ Hc E).
  - now intros [= <- <-].
  - intros [= <- <-]. exact Hm.
  - intros Hhe He. now apply Hh in Hhe.
Qed.

(** A part that never answers 400 or 404 may be followed by any other. *)
Lemma safe_then_loud {A B : Type} (m : M A) (k : A -> M B) :
  safe m -> (forall a, loud (k a)) -> safe (bind m k).
Proof.
  intros Hm Hk db w c w' Hc. unfold bind.
  destruct (m w) as [[a | r | e] w1] eqn:E; specialize (Hm _ _ _ _ Hc E).
  - intros Hka He. now apply Hk in Hka.
  - intros [= <- <-]. exact Hm.
  - now intros [= <- <-].
Qed.

#[export] Hint Resolve reads_ret reads_return reads_raise reads_or_raise
  reads_one_or_none reads_query reads_bind loud_ret loud_raise loud_or_raise
  loud_query loud_modify loud_commit loud_bind loud_with_connect
  loud_try_except safe_with_connect : handler.

Ltac loud_steps :=
  repeat first
    [ apply loud_bind; [| intros ?]
    | apply loud_return; discriminate
    | match goal with
      | |- loud (if ?b then _ else _) => destruct b
      | |- loud (match ?x with _ => _ end) => destruct x
      end
    | solve [unfold item, select_last_insert_id; auto with handler]
    | intros ? ? ?; unfold select_last_insert_id; apply loud_query ].

Section Safety.
Context {E : Engine}.

Lemma safe_post_business request : safe (post_business request).
Proof.
  unfold post_business.
  destruct (negb _); [apply reads_safe, reads_return|].
  apply loud_safe. apply loud_bind; [|intros business_id].
  - apply loud_try_except; [apply loud_with_connect | intros e].
    + unfold insert_business. loud_steps.
    + loud_steps.
  - loud_steps.
Qed.

Lemma safe_put_business request id : safe (put_business request id).
Proof.
  unfold put_business.
  destruct (negb _); [apply reads_safe, reads_return|].
  apply safe_with_connect.
  apply safe_bind; [apply reads_query | intros rows].
  apply safe_bind; [apply reads_one_or_none | intros [row|]].
  - apply loud_safe. unfold update_business. loud_steps.
  - apply reads_safe, reads_return.
Qed.

Lemma safe_delete_business request id : safe (delete_business request id).
Proof.
  unfold delete_business.
  apply safe_with_connect.
  apply safe_bind; [apply reads_query | intros rows].
  apply safe_bind; [apply reads_one_or_none | intros [row|]].
  - apply loud_safe. unfold delete_from_businesses. loud_steps.
  - apply reads_safe, reads_return.
Qed.

Lemma safe_post_review request : safe (post_review request).
Proof.
  unfold post_review.
  destruct (negb _); [apply reads_safe, reads_return|].
  apply safe_then_loud; [|intros review_id; loud_steps].
  apply safe_try_except; [|intros e; loud_steps].
  apply safe_with_connect.
  apply safe_bind; [apply reads_or_raise | intros id].
  apply safe_bind; [apply reads_query | intros rows].
  apply safe_bind; [apply reads_one_or_none | intros [row|]].
  - apply safe_bind; [apply reads_query | intros reviews].
    apply safe_bind; [apply reads_one_or_none | intros row'].
    apply safe_bind.
    + destruct row'; auto with handler.
      apply reads_bind; [apply reads_or_raise | intros v; apply reads_ret].
    + intros [|]; apply loud_safe; unfold insert_review; loud_steps.
  - apply reads_safe, reads_return.
Qed.

Lemma safe_put_review request id : safe (put_review request id).
Proof.
  unfold put_review.
  destruct (negb _); [apply reads_safe, reads_return|].
  apply safe_with_connect.
  apply safe_bind; [apply reads_query | intros rows].
  apply safe_bind; [apply reads_one_or_none | intros [row|]].
  - apply loud_safe. unfold update_review. loud_steps.
  - apply reads_safe, reads_return.
Qed.

Lemma safe_delete_review request id : safe (delete_review request id).
Proof.
  unfold delete_review.
  apply safe_with_connect.
  apply safe_bind; [apply reads_query | intros rows].
  apply safe_bind; [apply reads_one_or_none | intros [row|]].
  - apply loud_safe. unfold delete_from_reviews. loud_steps.
  - apply reads_safe, reads_return.
Qed.

End Safety.

(** C5: whenever one of the six writing routes answers 400 or 404, no
    INSERT, UPDATE or DELETE is among the statements it executed and the
    committed database is the one the request found. *)
Theorem errors_write_nothing {E : Engine} route request db :
  status_of (answer (run (dispatch route request) db)) = 400
  \/ status_of (answer (run (dispatch route request) db)) = 404 ->
  database (run (dispatch route request) db) = db
  /\ Forall (fun s => mutating s = false)
       (statements (run (dispatch route request) db)).
Proof.
  assert (Hsafe : safe (dispatch route request)).
  { destruct route; simpl;
      auto using safe_post_business, safe_put_business, safe_delete_business,
        safe_post_review, safe_put_review, safe_delete_review. }
  unfold run.
  destruct (dispatch route request (mkWorld db db 0 [])) as [c w] eqn:Hrun.
  simpl. intros Hstatus.
  assert (Hclean : clean db (mkWorld db db 0 [])) by (repeat split; constructor).
  assert (Herr : is_error c).
  { destruct c as [a | [body status] | e]; simpl in *;
      [destruct Hstatus; discriminate | exact Hstatus
      | destruct Hstatus; discriminate]. }
  destruct (Hsafe db _ c w Hclean Hrun Herr) as (Hc & _ & Hl). now split.
Qed.

Lemma errors_write_nothing_witness :
  database (run (dispatch (DELETE_reviews 99)
                   (Sample.get "http://localhost:8080/reviews/99")) Sample.five)
  = Sample.five
  /\ Forall (fun s => mutating s = false)
       (statements (run (dispatch (DELETE_reviews 99)
                           (Sample.get "http://localhost:8080/reviews/99"))
                      Sample.five)).
Proof.
  apply (errors_write_nothing (DELETE_reviews 99)
           (Sample.get "http://localhost:8080/reviews/99") Sample.five).
  right. reflexivity.
Defined.

(** ** GET /owners/{id}/businesses *)

Lemma owners_loop request id rows done :
  fold_left
    (fun business_list row =>
       let business := business_asdict row in
       let business :=
         Py.setitem business "self"
           (PStr (generate_self_url (base_url request) id)) in
       business_list ++ [business])
    rows done
  = done ++ map (fun row =>
                   business_asdict row
                     ++ [("self", PStr (generate_self_url (base_url request) id))])
              rows.
Proof.
  revert done; induction rows as [|row rows IH]; intros done; simpl.
  - now rewrite app_nil_r.
  - rewrite IH, <- app_assoc. reflexivity.
Qed.

(** C8: the answer is a 200 list with one entry per business row whose
    [owner_id] is the path parameter, all of them and no other, in table
    order.  An entry has the seven columns of its row under their names,
    followed by [self], which is the base URL and the owner's id for every
    entry; the handler executes the one SELECT and the database is as it
    was. *)
Theorem get_owners_businesses_lists_owner {E : Engine} request id db :
  run (get_owners_businesses request id) db
  = mkResult
      (Responded
         (PList
            (map (fun b =>
                    PDict [("business_id", PInt (business_id b));
                           ("owner_id", PInt (owner_id b));
                           ("name", PStr (name b));
                           ("street_address", PStr (street_address b));
                           ("city", PStr (city b));
                           ("state", PStr (state b));
                           ("zip_code", PInt (zip_code b));
                           ("self", PStr (base_url request ++ "/" ++ Py.str id)%string)])
               (filter (fun b => owner_id b =? id) (businesses db))))
         200)
      db [Select].
Proof.
  unfold run, get_owners_businesses, with_connect, bind,
    select_businesses_of_owner, query, return_.
  cbv beta iota. rewrite owners_loop. simpl. rewrite map_map.
  rewrite (filter_ext _ (fun b => owner_id b =? id))
    by (intros b; apply param_eq_int).
  reflexivity.
Qed.

Example get_owners_businesses_of_7 :
  answer (run (get_owners_businesses
                 (Sample.get "http://localhost:8080/owners/7/businesses") 7)
            Sample.three)
  = Responded
      (PList
         [PDict [("business_id", PInt 1); ("owner_id", PInt 7); ("name", PStr "A");
                 ("street_address", PStr "1 Main"); ("city", PStr "X");
                 ("state", PStr "CA"); ("zip_code", PInt 90001);
                 ("self", PStr "http://localhost:8080/owners/7/businesses/7")];
          PDict [("business_id", PInt 3); ("owner_id", PInt 7); ("name", PStr "A");
                 ("street_address", PStr "1 Main"); ("city", PStr "X");
                 ("state", PStr "CA"); ("zip_code", PInt 90001);
                 ("self", PStr "http://localhost:8080/owners/7/businesses/7")]])
      200.
Proof. reflexivity. Qed.

(** ** PUT /reviews/{id} *)

Lemma not_contains_getitem d k : Py.contains d k = false -> Py.getitem d k = None.
Proof.
  induction d as [|[k' v'] d IH]; simpl; [reflexivity|].
  destruct (String.eqb k k'); [discriminate | exact IH].
Qed.

(** What a 200 answer of [put_review] tells: the row was there, the engine
    took the new values, the table is updated in place, and the body holds
    the two links made by [generate_self_url] from the base URL. *)
Lemma put_review_inversion {E : Engine} request id db body :
  answer (run (put_review request id) db) = Responded body 200 ->
  exists row v s t d,
    filter (fun r => param_eq (review_id r) (PInt id)) (reviews db) = [row]
    /\ Py.getitem (get_json request) "stars" = Some v
    /\ to_int v = Some s
    /\ match Py.getitem (get_json request) "review_text" with
       | Some v' => exists t', to_varchar_null 1000 v' = Some t' /\ t = Some t'
       | None => t = None
       end
    /\ database (run (put_review request id) db)
       = mkDatabase (businesses db) (map (restar id s t) (reviews db))
           (businesses_auto_increment db) (reviews_auto_increment db)
    /\ body = PDict d
    /\ Py.getitem d "self"
       = Some (PStr (generate_self_url (base_url request) id))
    /\ Py.getitem d "business"
       = Some (PStr (generate_self_url (base_url request) (review_business_id row)))
    /\ Py.getitem d "business_id" = None.
Proof.
  unfold run, put_review, with_connect, bind, select_review, query, item, or_raise,
    update_review, modify, commit, ret, return_, raise, one_or_none.
  destruct (Py.contains (get_json request) "stars") eqn:Hstars; [|discriminate].
  cbn -[filter].
  destruct (filter _ (reviews db)) as [|row [|row' rows]] eqn:Hrows;
    [discriminate | | discriminate].
  destruct (contains_getitem _ _ Hstars) as [v Hv]. rewrite Hv. cbn.
  assert (Hupd : forall t,
             map (fun r => if param_eq (review_id r) (PInt id)
                           then mkReview (review_id r) (user_id r)
                                  (review_business_id r) t
                                  (match (None : option (option string)) with
                                   | Some t' => t'
                                   | None => review_text r
                                   end)
                           else r) (reviews db)
             = map (restar id t None) (reviews db)).
  { intros t. apply map_ext. intros r. unfold restar. now rewrite param_eq_int. }
  assert (Hupd' : forall t u,
             map (fun r => if param_eq (review_id r) (PInt id)
                           then mkReview (review_id r) (user_id r)
                                  (review_business_id r) t u
                           else r) (reviews db)
             = map (restar id t (Some u)) (reviews db)).
  { intros t u. apply map_ext. intros r. unfold restar. now rewrite param_eq_int. }
  destruct (Py.contains (get_json request) "review_text") eqn:Htext.
  - destruct (contains_getitem _ _ Htext) as [v' Hv']. rewrite Hv'. cbn.
    destruct (to_int v) as [s|] eqn:Hs; [|discriminate].
    destruct (to_varchar_null 1000 v') as [t'|] eqn:Ht; [|discriminate].
    cbn. intros [= <-]. exists row, v, s, (Some t'). eexists.
    rewrite Hupd'.
    repeat (split; [first [reflexivity | assumption | now exists t'] |]).
    reflexivity.
  - rewrite (not_contains_getitem _ _ Htext).
    destruct (to_int v) as [s|] eqn:Hs; [|discriminate].
    cbn. intros [= <-]. exists row, v, s, None. eexists.
    cbn in Hupd. rewrite Hupd.
    repeat (split; [first [reflexivity | assumption] |]). reflexivity.
Qed.

(** C6, at PUT /reviews/7 with stars 5, review 7 being one of business 2:
    the [business] link of the 200 body is the review's URL followed by
    the business id, not a path ending in /businesses/2, and the [self]
    link is the review's URL followed by the review id once more, not the
    review's URL. *)
Theorem put_review_links_hang_off_review_url :
  answer (run (put_review
                 (Sample.send "http://localhost:8080/reviews/7" [("stars", PInt 5)]) 7)
            Sample.five)
  = Responded
      (PDict [("review_id", PInt 7); ("user_id", PInt 3); ("stars", PInt 5);
              ("review_text", PStr "ok");
              ("business", PStr "http://localhost:8080/reviews/7/2");
              ("self", PStr "http://localhost:8080/reviews/7/7")])
      200.
Proof. reflexivity. Qed.

Lemma Forall2_map_same {A : Type} (R : A -> A -> Prop) (f : A -> A) (l : list A) :
  (forall x, R x (f x)) -> Forall2 R l (map f l).
Proof. intros H. induction l; simpl; constructor; auto. Qed.

(** C9: after a PUT that answered 200 the [businesses] table is as it was
    and the [reviews] table has the same rows in the same places, each
    with its [review_id], [user_id] and [business_id]; a row with another
    id is untouched; the row with the id has the stars the engine stored
    for the payload's [stars], and its text is the old one when the
    payload has no [review_text], the stored value of the payload's
    [review_text] otherwise. *)
Theorem put_review_updates_stars_and_text_only {E : Engine} request id db :
  status_of (answer (run (put_review request id) db)) = 200 ->
  exists v s,
    Py.getitem (get_json request) "stars" = Some v
    /\ to_int v = Some s
    /\ businesses (database (run (put_review request id) db)) = businesses db
    /\ Forall2
         (fun old new =>
            review_id new = review_id old
            /\ user_id new = user_id old
            /\ review_business_id new = review_business_id old
            /\ (review_id old <> id -> new = old)
            /\ (review_id old = id ->
                stars new = s
                /\ match Py.getitem (get_json request) "review_text" with
                   | None => review_text new = review_text old
                   | Some v' => to_varchar_null 1000 v' = Some (review_text new)
                   end))
         (reviews db) (reviews (database (run (put_review request id) db))).
Proof.
  intros Hstatus.
  destruct (answer (run (put_review request id) db)) as [body status|e] eqn:Ha;
    simpl in Hstatus; [subst status | discriminate].
  destruct (put_review_inversion _ _ _ _ Ha)
    as (row & v & s & t & d & _ & Hv & Hs & Ht & Hdb & _).
  exists v, s. rewrite Hdb. simpl. repeat (split; [assumption || reflexivity|]).
  apply Forall2_map_same. intros x. unfold restar.
  destruct (Z.eqb_spec (review_id x) id) as [Heq | Hne]; simpl.
  - repeat (split; [reflexivity || (intros; congruence) |]).
    destruct (Py.getitem (get_json request) "review_text") as [v'|].
    + destruct Ht as (t' & Ht' & ->). exact Ht'.
    + now subst t.
  - repeat (split; [reflexivity || (intros; congruence) |]).
    contradiction.
Qed.

Lemma put_review_updates_stars_and_text_only_witness :
  reviews
    (database (run (put_review
                      (Sample.send "http://localhost:8080/reviews/7"
                         [("stars", PInt 5)]) 7)
                 Sample.five))
  = [mkReview 7 3 2 5 (Some "ok")]
  /\ exists v s,
       Py.getitem [("stars", PInt 5)] "stars" = Some v
       /\ to_int v = Some s
       /\ businesses
            (database (run (put_review
                              (Sample.send "http://localhost:8080/reviews/7"
                                 [("stars", PInt 5)]) 7)
                         Sample.five))
          = businesses Sample.five.
Proof.
  split; [reflexivity|].
  assert (H : status_of
                (answer (run (put_review
                                (Sample.send "http://localhost:8080/reviews/7"
                                   [("stars", PInt 5)]) 7)
                           Sample.five)) = 200) by reflexivity.
  destruct (put_review_updates_stars_and_text_only _ _ _ H)
    as (v & s & Hv & Hs & Hb & _).
  exists v, s. auto.
Defined.

(** ** POST /reviews: the duplicate check *)

Ltac case_inner :=
  match goal with
  | |- context [match ?x with _ => _ end] =>
      lazymatch x with
      | context [match _ with _ => _ end] => fail
      | _ => destruct x eqn:?
      end
  end.

(** C2, at a business with two reviews, the first of them by user 1.  The
    table is the one that a post by user 1 and a post by user 2, both
    answered 201, make of business 5 without reviews.  User 1 has reviewed
    business 5 and the first review row of the business is theirs, yet a
    new post by user 1 is not answered 409: [one_or_none] raises on the two
    rows, the [except] catches it and the handler answers 500, the database
    as it was. *)
Theorem post_review_two_rows_not_409 :
  status_of
    (answer (run (post_review
                    (Sample.send "http://localhost:8080/reviews" (Sample.review_by 1 4)))
               Sample.lonely)) = 201
  /\ status_of
       (answer (run (post_review
                       (Sample.send "http://localhost:8080/reviews"
                          (Sample.review_by 2 3)))
                  (database
                     (run (post_review
                             (Sample.send "http://localhost:8080/reviews"
                                (Sample.review_by 1 4)))
                        Sample.lonely)))) = 201
  /\ database
       (run (post_review
               (Sample.send "http://localhost:8080/reviews" (Sample.review_by 2 3)))
          (database
             (run (post_review
                     (Sample.send "http://localhost:8080/reviews" (Sample.review_by 1 4)))
                Sample.lonely)))
     = Sample.crowded
  /\ hd_error (reviews_of Sample.crowded (PInt 5)) = Some (mkReview 1 1 5 4 None)
  /\ Py.eq_int (user_id (mkReview 1 1 5 4 None)) (PInt 1) = true
  /\ businesses_with Sample.crowded (PInt 5) = [Sample.business 5 1]
  /\ run (post_review
            (Sample.send "http://localhost:8080/reviews" (Sample.review_by 1 4)))
       Sample.crowded
     = mkResult
         (Responded (PDict [("Error", PStr "Unable to create review")]) 500)
         Sample.crowded [Select; Select].
Proof. repeat split. Qed.

Lemma conflict_iff_single_row {E : Engine} request db v_business v_user :
  Py.contains (get_json request) "stars" = true ->
  Py.getitem (get_json request) "business_id" = Some v_business ->
  Py.getitem (get_json request) "user_id" = Some v_user ->
  (exists b, businesses_with db v_business = [b]) ->
  (List.length (reviews_of db v_business) <= 1)%nat ->
  (status_of (answer (run (post_review request) db)) = 409
   <-> exists row,
         reviews_of db v_business = [row]
         /\ Py.eq_int (user_id row) v_user = true)
  /\ (status_of (answer (run (post_review request) db)) = 409 ->
      run (post_review request) db
      = mkResult
          (Responded (PDict [("Error", PStr "You have already submitted a review for this business. You can update your previous review, or delete it and submit a new review")]) 409)
          db [Select; Select]).
Proof.
  unfold businesses_with, reviews_of.
  intros Hs Hb Hu [b Hbiz] Hone.
  destruct (contains_getitem _ _ Hs) as [v_stars Hstars].
  unfold run, post_review, try_except, with_connect, bind, item, or_raise,
    select_business, select_reviews_of_business, query, insert_review, modify,
    select_last_insert_id, commit, one_or_none, ret, return_, raise.
  cbn [validate_business_post_put REVIEWS_REQUIRED_ATTRIBUTES].
  rewrite Hs, (getitem_contains _ _ _ Hb), (getitem_contains _ _ _ Hu), Hb, Hu, Hstars.
  cbn -[filter]. rewrite Hbiz. cbn -[filter].
  destruct (filter _ (reviews db)) as [|row [|row' rows]] eqn:Hrows.
  - cbn -[filter]. repeat (case_inner; cbn -[filter]);
      (split; [split; [discriminate | intros (r & H & _); discriminate H]
              | discriminate]).
  - cbn -[filter]. destruct (Py.eq_int (user_id row) v_user) eqn:Hdup.
    + cbn. split; [split; [intros _; now exists row | reflexivity] | reflexivity].
    + cbn -[filter]. repeat (case_inner; cbn -[filter]);
        (split; [split; [discriminate
                        | intros (r & [= <-] & H); congruence]
                | discriminate]).
  - simpl in Hone. lia.
Qed.

(** A post that passes both checks and that the engine accepts is answered
    201 and adds one row to [reviews]. *)
Lemma post_review_creates {E : Engine} request db v_user v_business v_stars u b s t :
  Py.getitem (get_json request) "user_id" = Some v_user ->
  Py.getitem (get_json request) "business_id" = Some v_business ->
  Py.getitem (get_json request) "stars" = Some v_stars ->
  to_int v_user = Some u ->
  to_bigint v_business = Some b ->
  to_int v_stars = Some s ->
  match Py.getitem (get_json request) "review_text" with
  | Some v => to_varchar_null 1000 v = Some t
  | None => t = None
  end ->
  (exists row, businesses_with db v_business = [row]) ->
  reviews_of db v_business = [] ->
  existsb (fun r => review_id r =? reviews_auto_increment db) (reviews db) = false ->
  existsb (fun x => business_id x =? b) (businesses db) = true ->
  status_of (answer (run (post_review request) db)) = 201
  /\ database (run (post_review request) db)
     = mkDatabase (businesses db)
         (reviews db ++ [mkReview (reviews_auto_increment db) u b s t])
         (businesses_auto_increment db) (reviews_auto_increment db + 1).
Proof.
  unfold businesses_with, reviews_of.
  intros Hu Hb Hs Hiu Hib His Ht [row Hbiz] Hnone Hpk Hfk.
  unfold run, post_review, try_except, with_connect, bind, item, or_raise,
    select_business, select_reviews_of_business, query, insert_review, modify,
    select_last_insert_id, commit, one_or_none, ret, return_, raise.
  cbn [validate_business_post_put REVIEWS_REQUIRED_ATTRIBUTES].
  rewrite (getitem_contains _ _ _ Hs), (getitem_contains _ _ _ Hb),
    (getitem_contains _ _ _ Hu), Hb, Hu, Hs.
  cbn -[filter existsb]. rewrite Hbiz. cbn -[filter existsb].
  rewrite Hnone. cbn -[filter existsb].
  destruct (Py.contains (get_json request) "review_text") eqn:Htext.
  - destruct (contains_getitem _ _ Htext) as [v Hv]. rewrite Hv in *.
    cbn -[filter existsb]. rewrite Hiu, Hib, His, Ht, Hpk, Hfk. now split.
  - rewrite (not_contains_getitem _ _ Htext) in Ht. subst t.
    cbn -[filter existsb]. rewrite Hiu, Hib, His, Hpk, Hfk. now split.
Qed.

Lemma existsb_of_filter {A : Type} (f g : A -> bool) (l : list A) x :
  filter f l = [x] -> (forall y, f y = true -> g y = true) -> existsb g l = true.
Proof.
  intros Hf Hfg. apply existsb_exists. exists x.
  assert (Hin : In x (filter f l)) by (rewrite Hf; now left).
  apply filter_In in Hin. destruct Hin as [Hin Hfx]. auto.
Qed.

(** The duplicate check on a business with at most one review row.  For a
    payload with the three required fields that names an existing
    business: the answer is 409 exactly when that row exists and its
    [user_id] equals the submitted one, and a 409 answer carries the
    "already submitted" message and leaves the database as it was.  When
    the business has no review, the submitted ids are the integers [u] and
    [b] and the engine stores them and the other values of the post as
    they are, the post is answered 201 and every later post with the same
    [user_id] and [business_id] is answered 409. *)
Lemma post_review_conflict {E : Engine} request db v_business v_user :
  Py.contains (get_json request) "stars" = true ->
  Py.getitem (get_json request) "business_id" = Some v_business ->
  Py.getitem (get_json request) "user_id" = Some v_user ->
  (exists b, businesses_with db v_business = [b]) ->
  (List.length (reviews_of db v_business) <= 1)%nat ->
  (status_of (answer (run (post_review request) db)) = 409
   <-> exists row,
         reviews_of db v_business = [row]
         /\ Py.eq_int (user_id row) v_user = true)
  /\ (status_of (answer (run (post_review request) db)) = 409 ->
      exists message,
        answer (run (post_review request) db)
        = Responded (PDict [("Error", PStr message)]) 409
        /\ mentions "already submitted" message = true
        /\ database (run (post_review request) db) = db)
  /\ (forall u b v_stars s t,
        reviews_of db v_business = [] ->
        v_user = PInt u -> v_business = PInt b ->
        to_int (PInt u) = Some u -> to_bigint (PInt b) = Some b ->
        Py.getitem (get_json request) "stars" = Some v_stars ->
        to_int v_stars = Some s ->
        match Py.getitem (get_json request) "review_text" with
        | Some v => to_varchar_null 1000 v = Some t
        | None => t = None
        end ->
        existsb (fun r => review_id r =? reviews_auto_increment db) (reviews db)
        = false ->
        status_of (answer (run (post_review request) db)) = 201
        /\ forall again,
             Py.getitem (get_json again) "user_id" = Some (PInt u) ->
             Py.getitem (get_json again) "business_id" = Some (PInt b) ->
             Py.contains (get_json again) "stars" = true ->
             status_of
               (answer (run (post_review again)
                          (database (run (post_review request) db)))) = 409).
Proof.
  intros Hs Hb Hu Hbiz Hone.
  destruct (conflict_iff_single_row request db v_business v_user Hs Hb Hu Hbiz Hone)
    as [Hiff Hbody].
  split; [exact Hiff | split].
  - intros H409. rewrite (Hbody H409). eexists. repeat split.
  - intros u b v_stars s t Hnone -> -> Hiu Hib Hstars His Ht Hpk.
    assert (Hfk : existsb (fun x => business_id x =? b) (businesses db) = true).
    { destruct Hbiz as [row Hrow]. unfold businesses_with in Hrow.
      apply (existsb_of_filter _ _ _ _ Hrow).
      intros y. now rewrite param_eq_int. }
    destruct (post_review_creates request db _ _ _ u b s t Hu Hb Hstars Hiu Hib His
                Ht Hbiz Hnone Hpk Hfk) as [H201 Hdb].
    split; [exact H201|]. intros again Hu' Hb' Hs'.
    rewrite Hdb.
    apply (conflict_iff_single_row again _ (PInt b) (PInt u) Hs' Hb' Hu').
    + exact Hbiz.
    + unfold reviews_of in *. simpl. rewrite filter_app, Hnone. simpl.
      destruct (param_eq b (PInt b)); simpl; lia.
    + exists (mkReview (reviews_auto_increment db) u b s t).
      unfold reviews_of in *. simpl. rewrite filter_app, Hnone. simpl.
      rewrite param_eq_int, !Z.eqb_refl. now split.
Qed.

Lemma post_review_conflict_witness :
  status_of
    (answer (run (post_review
                    (Sample.send "http://localhost:8080/reviews" (Sample.review_by 1 4)))
               Sample.five)) = 201
  /\ status_of
       (answer (run (post_review
                       (Sample.send "http://localhost:8080/reviews" (Sample.review_by 1 2)))
                  (database
                     (run (post_review
                             (Sample.send "http://localhost:8080/reviews"
                                (Sample.review_by 1 4)))
                        Sample.five)))) = 409.
Proof.
  assert (Hbiz : exists b, businesses_with Sample.five (PInt 5) = [b])
    by (exists (Sample.business 5 1); reflexivity).
  assert (Hone : (List.length (reviews_of Sample.five (PInt 5)) <= 1)%nat)
    by (simpl; lia).
  destruct (post_review_conflict
              (Sample.send "http://localhost:8080/reviews" (Sample.review_by 1 4))
              Sample.five (PInt 5) (PInt 1) eq_refl eq_refl eq_refl Hbiz Hone)
    as (_ & _ & Hfirst).
  destruct (Hfirst 1 5 (PInt 4) 4 None eq_refl eq_refl eq_refl eq_refl eq_refl
              eq_refl eq_refl eq_refl eq_refl) as [H201 Hagain].
  split; [exact H201|].
  apply Hagain; reflexivity.
Defined.

Example already_submitted_scenario :
  answer (run (post_review
                 (Sample.send "http://localhost:8080/reviews" (Sample.review_by 1 2)))
            (database
               (run (post_review
                       (Sample.send "http://localhost:8080/reviews"
                          (Sample.review_by 1 4)))
                  Sample.five)))
  = Responded
      (PDict [("Error", PStr "You have already submitted a review for this business. You can update your previous review, or delete it and submit a new review")])
      409.
Proof. reflexivity. Qed.

(** ** The reading routes write nothing *)

Lemma read_only_ret {A : Type} (a : A) : read_only (ret a).
Proof.
  intros w c w' [= <- <-]. split; [reflexivity|]. exists [].
  now rewrite app_nil_r.
Qed.

Lemma read_only_return {A : Type} r : read_only (@return_ A r).
Proof.
  intros w c w' [= <- <-]. split; [reflexivity|]. exists [].
  now rewrite app_nil_r.
Qed.

Lemma read_only_raise {A : Type} e : read_only (@raise A e).
Proof.
  intros w c w' [= <- <-]. split; [reflexivity|]. exists [].
  now rewrite app_nil_r.
Qed.

Lemma read_only_or_raise {A : Type} e (o : option A) : read_only (or_raise e o).
Proof. destruct o; [apply read_only_ret | apply read_only_raise]. Qed.

Lemma read_only_one_or_none {A : Type} (rows : list A) : read_only (one_or_none rows).
Proof.
  destruct rows as [|x [|y rows]];
    [apply read_only_ret | apply read_only_ret | apply read_only_raise].
Qed.

Lemma read_only_query {A : Type} (f : Database -> A) : read_only (query f).
Proof.
  intros w c w' [= <- <-]. split; [reflexivity|]. exists [Select].
  split; [reflexivity | now constructor].
Qed.

Lemma read_only_bind {A B : Type} (m : M A) (k : A -> M B) :
  read_only m -> (forall a, read_only (k a)) -> read_only (bind m k).
Proof.
  intros Hm Hk w c w'. unfold bind.
  destruct (m w) as [[a | r | e] w1] eqn:E;
    destruct (Hm _ _ _ E) as (Hc & l1 & Hl1 & Hs1).
  - intros Hka. destruct (Hk a _ _ _ Hka) as (Hc' & l2 & Hl2 & Hs2).
    split; [congruence|]. exists (l1 ++ l2). split.
    + now rewrite Hl2, Hl1, app_assoc.
    + apply Forall_app. now split.
  - intros [= <- <-]. split; [assumption|]. now exists l1.
  - intros [= <- <-]. split; [assumption|]. now exists l1.
Qed.

Lemma read_only_with_connect {A : Type} (m : M A) :
  read_only m -> read_only (with_connect m).
Proof.
  intros Hm w c w'. unfold with_connect.
  destruct (m w) as [c1 w1] eqn:E. intros [= <- <-]. simpl.
  exact (Hm _ _ _ E).
Qed.

#[export] Hint Resolve read_only_ret read_only_return read_only_raise
  read_only_or_raise read_only_one_or_none read_only_query read_only_bind
  read_only_with_connect : handler.

Ltac read_only_steps :=
  repeat first
    [ apply read_only_with_connect
    | apply read_only_bind; [| intros ?]
    | match goal with
      | |- read_only (if ?b then _ else _) => destruct b
      | |- read_only (match ?x with _ => _ end) => destruct x
      end
    | solve [unfold item; auto with handler] ].

Lemma read_only_read_params params offset limit :
  read_only (read_params params offset limit).
Proof.
  revert offset limit; induction params as [|param params IH]; intros offset limit;
    simpl; [apply read_only_ret|].
  apply read_only_bind; [apply read_only_or_raise | intros c].
  apply read_only_bind; [apply read_only_or_raise | intros n].
  destruct (String.eqb _ _); apply IH.
Qed.

Lemma read_only_dispatch_read {E : Engine} route request :
  read_only (dispatch_read route request).
Proof.
  destruct route; simpl.
  - apply read_only_return.
  - unfold get_businesses, select_businesses_page.
    apply read_only_bind; [apply read_only_or_raise | intros last].
    apply read_only_bind; [| intros [offset limit]].
    + destruct (negb _); [|apply read_only_ret].
      apply read_only_bind; [apply read_only_or_raise | intros sliced].
      destruct (Py.method_split sliced "&");
        [apply read_only_raise | apply read_only_read_params].
    + apply read_only_with_connect.
      apply read_only_bind; [read_only_steps | intros rows].
      destruct (list_businesses request rows) as [businesses business].
      read_only_steps.
  - unfold get_business, select_business. read_only_steps.
  - unfold get_owners_businesses, select_businesses_of_owner. read_only_steps.
  - unfold get_review, select_review. read_only_steps.
  - unfold get_users_reviews, select_reviews_of_user. read_only_steps.
Qed.

(** X1: whatever a reading route answers, and also when it raises, the
    committed database is the one the request found and every statement it
    executed is a SELECT. *)
Theorem reading_routes_never_write {E : Engine} route request db :
  database (run (dispatch_read route request) db) = db
  /\ Forall (fun s => s = Select)
       (statements (run (dispatch_read route request) db)).
Proof.
  unfold run.
  destruct (dispatch_read route request (mkWorld db db 0 [])) as [c w] eqn:Hrun.
  destruct (read_only_dispatch_read route request _ _ _ Hrun)
    as (Hc & selects & Hl & Hs).
  simpl in *. split; [assumption|]. now rewrite Hl.
Qed.

(** ** GET /businesses/{id} and GET /reviews/{id} *)

Lemma filter_absent_key {A : Type} (key : A -> Z) (l : list A) id :
  ~ In id (map key l) -> filter (fun x => key x =? id) l = [].
Proof.
  intros H. apply filter_none. intros x Hx. apply Z.eqb_neq. intros Heq.
  apply H. rewrite <- Heq. now apply in_map.
Qed.

(** With unique keys, the rows with a given key are the first one found,
    if any. *)
Lemma filter_by_key {A : Type} (key : A -> Z) (l : list A) id :
  NoDup (map key l) ->
  filter (fun x => key x =? id) l
  = match find (fun x => key x =? id) l with
    | Some x => [x]
    | None => []
    end.
Proof.
  induction l as [|a l IH]; simpl; [reflexivity|].
  intros Hnd. inversion Hnd as [|k ks Hnotin Hnd']; subst.
  destruct (Z.eqb_spec (key a) id) as [Heq | Hne].
  - f_equal. apply filter_absent_key. now rewrite <- Heq.
  - now apply IH.
Qed.

Lemma select_by_key {E : Engine} {A : Type} (key : A -> Z) (l : list A) id :
  filter (fun x => param_eq (key x) (PInt id)) l
  = filter (fun x => key x =? id) l.
Proof. apply filter_ext. intros x. apply param_eq_int. Qed.

Lemma find_key {A : Type} (key : A -> Z) (l : list A) id x :
  find (fun y => key y =? id) l = Some x -> In x l /\ key x = id.
Proof.
  intros H. apply find_some in H. destruct H as [Hin Heq].
  split; [assumption | now apply Z.eqb_eq].
Qed.

Lemma get_business_lookup {E : Engine} request id db :
  NoDup (map business_id (businesses db)) ->
  run (get_business request id) db
  = mkResult
      (match find (fun b => business_id b =? id) (businesses db) with
       | Some b =>
           Responded
             (PDict [("owner_id", PInt (owner_id b));
                     ("name", PStr (name b));
                     ("street_address", PStr (street_address b));
                     ("city", PStr (city b));
                     ("state", PStr (state b));
                     ("zip_code", PInt (zip_code b));
                     ("self", PStr (base_url request));
                     ("id", PInt id)])
             200
       | None =>
           Responded
             (PDict [("Error", PStr "No business with this business_id exists")])
             404
       end)
      db [Select].
Proof.
  intros Hnd.
  unfold run, get_business, with_connect, bind, select_business, query.
  cbn -[filter]. rewrite select_by_key, (filter_by_key _ _ _ Hnd).
  destruct (find _ (businesses db)) as [b|] eqn:Hfind; [|reflexivity].
  apply find_key in Hfind. destruct Hfind as [_ <-]. reflexivity.
Qed.

(** X2: on a table with unique ids, GET /businesses/{id} answers 200 with
    the six attributes of the row, [self] the request's base URL and [id]
    in place of [business_id] when the row exists, and 404 with the
    business message when it does not; it never raises. *)
Theorem get_business_answers {E : Engine} request id db :
  NoDup (map business_id (businesses db)) ->
  run (get_business request id) db
  = mkResult
      (match find (fun b => business_id b =? id) (businesses db) with
       | Some b =>
           Responded
             (PDict [("owner_id", PInt (owner_id b));
                     ("name", PStr (name b));
                     ("street_address", PStr (street_address b));
                     ("city", PStr (city b));
                     ("state", PStr (state b));
                     ("zip_code", PInt (zip_code b));
                     ("self", PStr (base_url request));
                     ("id", PInt id)])
             200
       | None =>
           Responded
             (PDict [("Error", PStr "No business with this business_id exists")])
             404
       end)
      db [Select].
Proof. exact (get_business_lookup request id db). Qed.

Lemma get_business_answers_witness :
  answer (run (get_business (Sample.get "http://localhost:8080/businesses/2") 2)
            Sample.five)
  = Responded
      (PDict [("owner_id", PInt 8); ("name", PStr "A");
              ("street_address", PStr "1 Main"); ("city", PStr "X");
              ("state", PStr "CA"); ("zip_code", PInt 90001);
              ("self", PStr "http://localhost:8080/businesses/2");
              ("id", PInt 2)])
      200.
Proof.
  rewrite (get_business_answers (Sample.get "http://localhost:8080/businesses/2")
             2 Sample.five).
  - reflexivity.
  - simpl. repeat constructor; simpl; intuition discriminate.
Defined.

Lemma get_review_lookup {E : Engine} request id db :
  NoDup (map review_id (reviews db)) ->
  run (get_review request id) db
  = mkResult
      (match find (fun r => review_id r =? id) (reviews db) with
       | Some r =>
           Responded
             (PDict [("review_id", PInt id);
                     ("user_id", PInt (user_id r));
                     ("business_id", PInt (review_business_id r));
                     ("stars", PInt (stars r));
                     ("review_text",
                      match review_text r with Some s => PStr s | None => PNone end);
                     ("self", PStr (base_url request))])
             200
       | None =>
           Responded
             (PDict [("Error", PStr "No review with this review_id exists")])
             404
       end)
      db [Select].
Proof.
  intros Hnd.
  unfold run, get_review, with_connect, bind, select_review, query.
  cbn -[filter]. rewrite select_by_key, (filter_by_key _ _ _ Hnd).
  destruct (find _ (reviews db)) as [r|] eqn:Hfind; [|reflexivity].
  apply find_key in Hfind. destruct Hfind as [_ <-]. reflexivity.
Qed.

(** X3: on a table with unique ids, GET /reviews/{id} answers 200 with the
    five columns of the row, a text that is NULL shown as [None], and
    [self] the request's base URL when the row exists, and 404 with the
    review message when it does not; it never raises. *)
Theorem get_review_answers {E : Engine} request id db :
  NoDup (map review_id (reviews db)) ->
  run (get_review request id) db
  = mkResult
      (match find (fun r => review_id r =? id) (reviews db) with
       | Some r =>
           Responded
             (PDict [("review_id", PInt id);
                     ("user_id", PInt (user_id r));
                     ("business_id", PInt (review_business_id r));
                     ("stars", PInt (stars r));
                     ("review_text",
                      match review_text r with Some s => PStr s | None => PNone end);
                     ("self", PStr (base_url request))])
             200
       | None =>
           Responded
             (PDict [("Error", PStr "No review with this review_id exists")])
             404
       end)
      db [Select].
Proof. exact (get_review_lookup request id db). Qed.

Lemma get_review_answers_witness :
  answer (run (get_review (Sample.get "http://localhost:8080/reviews/8") 8)
            Sample.five)
  = Responded (PDict [("Error", PStr "No review with this review_id exists")]) 404.
Proof.
  rewrite (get_review_answers (Sample.get "http://localhost:8080/reviews/8")
             8 Sample.five).
  - reflexivity.
  - simpl. repeat constructor; simpl; intuition discriminate.
Defined.

(** ** POST /businesses *)

Ltac unfold_handler :=
  unfold run, try_except, with_connect, bind, item, or_raise, query, modify,
    select_last_insert_id, commit, one_or_none, ret, return_, raise.

(** What a 201 answer of [post_business] tells. *)
Lemma post_business_created {E : Engine} request db body :
  answer (run (post_business request) db) = Responded body 201 ->
  exists v_o v_n v_a v_c v_s v_z o n a c s z,
    (Py.getitem (get_json request) "owner_id" = Some v_o /\ to_int v_o = Some o)
    /\ (Py.getitem (get_json request) "name" = Some v_n /\ to_varchar 50 v_n = Some n)
    /\ (Py.getitem (get_json request) "street_address" = Some v_a
        /\ to_varchar 100 v_a = Some a)
    /\ (Py.getitem (get_json request) "city" = Some v_c /\ to_varchar 50 v_c = Some c)
    /\ (Py.getitem (get_json request) "state" = Some v_s /\ to_varchar 2 v_s = Some s)
    /\ (Py.getitem (get_json request) "zip_code" = Some v_z /\ to_int v_z = Some z)
    /\ ~ In (businesses_auto_increment db) (map business_id (businesses db))
    /\ database (run (post_business request) db)
       = mkDatabase
           (businesses db ++ [mkBusiness (businesses_auto_increment db) o n a c s z])
           (reviews db) (businesses_auto_increment db + 1)
           (reviews_auto_increment db)
    /\ body
       = PDict [("id", PInt (businesses_auto_increment db));
                ("owner_id", v_o); ("name", v_n); ("street_address", v_a);
                ("city", v_c); ("state", v_s); ("zip_code", v_z);
                ("self", PStr (generate_self_url (base_url request)
                                 (businesses_auto_increment db)))].
Proof.
  unfold post_business, insert_business. unfold_handler.
  destruct (validate_business_post_put _ _); [|discriminate].
  cbn -[existsb].
  repeat (case_inner; cbn -[existsb]); try discriminate.
  intros [= <-].
  repeat eexists; try eassumption.
  intros Hin. apply in_map_iff in Hin. destruct Hin as (b & Hb & Hin).
  match goal with
  | H : existsb _ _ = false |- _ =>
      apply Bool.not_true_iff_false in H; apply H; apply existsb_exists
  end.
  exists b. split; [assumption | now apply Z.eqb_eq].
Qed.

Lemma find_app_new {A : Type} (key : A -> Z) (l : list A) x :
  ~ In (key x) (map key l) ->
  find (fun y => key y =? key x) (l ++ [x]) = Some x.
Proof.
  intros Hnew. induction l as [|a l IH]; simpl.
  - now rewrite Z.eqb_refl.
  - destruct (Z.eqb_spec (key a) (key x)) as [Heq | Hne].
    + exfalso. apply Hnew. left. exact Heq.
    + apply IH. intros Hin. apply Hnew. now right.
Qed.

Lemma NoDup_app_new {A : Type} (key : A -> Z) (l : list A) x :
  NoDup (map key l) -> ~ In (key x) (map key l) -> NoDup (map key (l ++ [x])).
Proof.
  intros Hnd Hnew. rewrite map_app. simpl.
  apply NoDup_rev in Hnd. rewrite <- (rev_involutive (map key l ++ [key x])).
  apply NoDup_rev. rewrite rev_app_distr. simpl. constructor; [|assumption].
  now rewrite <- in_rev.
Qed.

(** X4: after a POST /businesses answered 201, the table has one more row
    whose columns are what the engine stored for the six values of the
    payload; the body carries its id, and a GET of that id answers 200
    with those columns. *)
Theorem post_then_get_business {E : Engine} request db body :
  NoDup (map business_id (businesses db)) ->
  answer (run (post_business request) db) = Responded body 201 ->
  exists b d,
    body = PDict d
    /\ Py.getitem d "id" = Some (PInt (business_id b))
    /\ Py.getitem d "self"
       = Some (PStr (base_url request ++ "/" ++ Py.str (business_id b))%string)
    /\ stores_business (get_json request) b
    /\ businesses (database (run (post_business request) db))
       = businesses db ++ [b]
    /\ forall again,
         answer (run (get_business again (business_id b))
                   (database (run (post_business request) db)))
         = Responded
             (PDict [("owner_id", PInt (owner_id b));
                     ("name", PStr (name b));
                     ("street_address", PStr (street_address b));
                     ("city", PStr (city b));
                     ("state", PStr (state b));
                     ("zip_code", PInt (zip_code b));
                     ("self", PStr (base_url again));
                     ("id", PInt (business_id b))])
             200.
Proof.
  intros Hnd Hpost.
  destruct (post_business_created _ _ _ Hpost)
    as (v_o & v_n & v_a & v_c & v_s & v_z & o & n & a & c & s & z
        & Ho & Hn & Ha & Hc & Hs & Hz & Hnew & Hdb & ->).
  exists (mkBusiness (businesses_auto_increment db) o n a c s z). eexists.
  split; [reflexivity|]. split; [reflexivity|]. split; [reflexivity|].
  split.
  { unfold stores_business, stored. simpl.
    repeat split; eexists; eauto. }
  rewrite Hdb. split; [reflexivity|]. intros again.
  set (b := mkBusiness (businesses_auto_increment db) o n a c s z).
  assert (Hnd' : NoDup (map business_id (businesses db ++ [b])))
    by (apply NoDup_app_new; assumption).
  rewrite get_business_lookup by exact Hnd'. simpl answer.
  change (businesses_auto_increment db) with (business_id b).
  simpl businesses. now rewrite (find_app_new business_id _ b Hnew).
Qed.

Lemma post_then_get_business_witness :
  exists id,
    answer (run (get_business (Sample.get "http://localhost:8080/businesses/4") id)
              (database
                 (run (post_business
                         (Sample.send "http://localhost:8080/businesses"
                            [("owner_id", PInt 1); ("name", PStr "B");
                             ("street_address", PStr "2 Main");
                             ("city", PStr "Y"); ("state", PStr "OR");
                             ("zip_code", PInt 97001)]))
                    Sample.three)))
    = Responded
        (PDict [("owner_id", PInt 1); ("name", PStr "B");
                ("street_address", PStr "2 Main"); ("city", PStr "Y");
                ("state", PStr "OR"); ("zip_code", PInt 97001);
                ("self", PStr "http://localhost:8080/businesses/4");
                ("id", PInt id)])
        200.
Proof.
  assert (Hnd : NoDup (map business_id (businesses Sample.three)))
    by (simpl; repeat constructor; simpl; intuition discriminate).
  assert (Hpost : exists body,
             answer (run (post_business
                            (Sample.send "http://localhost:8080/businesses"
                               [("owner_id", PInt 1); ("name", PStr "B");
                                ("street_address", PStr "2 Main");
                                ("city", PStr "Y"); ("state", PStr "OR");
                                ("zip_code", PInt 97001)]))
                       Sample.three)
             = Responded body 201)
    by (eexists; reflexivity).
  destruct Hpost as [body Hpost].
  destruct (post_then_get_business _ _ _ Hnd Hpost)
    as (b & d & _ & _ & _ & _ & Hrows & Hget).
  exists (business_id b).
  rewrite (Hget (Sample.get "http://localhost:8080/businesses/4")).
  simpl in Hrows. injection Hrows as <-. reflexivity.
Defined.

(** ** The validation of payloads *)

Lemma validate_business_post_put_false content attributes key :
  In key attributes -> Py.contains content key = false ->
  validate_business_post_put content attributes = false.
Proof.
  intros Hin Hk. apply Bool.not_true_iff_false. intros Hv.
  apply validate_business_post_put_true in Hv.
  rewrite Forall_forall in Hv. specialize (Hv key Hin). congruence.
Qed.

(** On null and on a number the membership test raises; on every other
    body the validation gives its verdict. *)
Lemma validate_iterable v attributes :
  match v with
  | PNone | PInt _ => True
  | _ => exists verdict, Http.validate_business_post_put v attributes = inr verdict
  end.
Proof.
  destruct v; trivial;
    (induction attributes as [|key attributes IH]; simpl;
     [now exists true | case_inner; [exact IH | now exists false]]).
Qed.

Lemma validate_not_iterable v key attributes :
  v = PNone \/ (exists z, v = PInt z) ->
  Http.validate_business_post_put v (key :: attributes) = inl TypeError.
Proof. intros [-> | [z ->]]; reflexivity. Qed.

(** What a writing route does with a body that the test on its required
    attributes rejects, or on which the test raises. *)
Lemma dispatch_rejected {E : Engine} route request db v :
  http_body request = Json v ->
  match Http.validate_business_post_put v (required_attributes route) with
  | inr true => True
  | inr false =>
      run (Http.dispatch route request) db
      = mkResult (Responded (PDict POST_PUT_ERROR) 400) db []
  | inl _ =>
      run (Http.dispatch route request) db = mkResult (Failed TypeError) db []
  end.
Proof.
  intros Hbody.
  destruct (Http.validate_business_post_put v (required_attributes route))
    as [e | [|]] eqn:Hvalid; [|exact I|].
  - apply validate_raises_type_error in Hvalid as He. subst e.
    destruct route; cbn [required_attributes] in Hvalid; try discriminate Hvalid;
      unfold run; cbn [Http.dispatch];
      unfold Http.post_business, Http.put_business, Http.post_review,
        Http.put_review, Http.get_json; rewrite Hbody;
      unfold bind at 1; unfold ret at 1; unfold bind at 1.
    + now rewrite Hvalid.
    + now rewrite Hvalid.
    + now rewrite Hvalid.
    + cbn [Http.validate_business_post_put] in Hvalid.
      destruct (Http.contains v "stars") as [e | [|]]; try discriminate Hvalid.
      now injection Hvalid as ->.
  - destruct route; cbn [required_attributes] in Hvalid; try discriminate Hvalid;
      unfold run; cbn [Http.dispatch];
      unfold Http.post_business, Http.put_business, Http.post_review,
        Http.put_review, Http.get_json; rewrite Hbody;
      unfold bind at 1; unfold ret at 1; unfold bind at 1.
    + now rewrite Hvalid.
    + now rewrite Hvalid.
    + rewrite Hvalid.
      destruct v; try discriminate Hvalid; reflexivity.
    + cbn [Http.validate_business_post_put] in Hvalid.
      now destruct (Http.contains v "stars") as [e | [|]].
Qed.

(** X5: the writing routes test the body for their required attributes
    before they connect.  A body on which the test finds one of them
    missing - a JSON object without the key, a list without the element, a
    string without the substring - is answered 400 with the one error body
    of the API; on null or a number the test raises [TypeError], which
    escapes the handler.  No statement is executed either way, whatever
    the id in the path. *)
Theorem missing_attribute_is_400 {E : Engine} route request db v :
  http_body request = Json v ->
  (Http.validate_business_post_put v (required_attributes route) = inr false ->
   run (Http.dispatch route request) db
   = mkResult
       (Responded
          (PDict [("Error", PStr "The request body is missing at least one of the required attributes")])
          400)
       db [])
  /\ (forall content key,
        v = PDict content ->
        In key (required_attributes route) ->
        Py.contains content key = false ->
        run (Http.dispatch route request) db
        = mkResult
            (Responded
               (PDict [("Error", PStr "The request body is missing at least one of the required attributes")])
               400)
            db [])
  /\ (v = PNone \/ (exists z, v = PInt z) ->
      required_attributes route <> [] ->
      run (Http.dispatch route request) db = mkResult (Failed TypeError) db []).
Proof.
  intros Hbody. pose proof (dispatch_rejected route request db v Hbody) as H.
  split; [|split].
  - intros Hvalid. now rewrite Hvalid in H.
  - intros content key -> Hin Hk.
    rewrite validate_on_object,
      (validate_business_post_put_false _ _ _ Hin Hk) in H. exact H.
  - intros Hv Hne. destruct (required_attributes route) as [|key attributes];
      [congruence|].
    now rewrite (validate_not_iterable v key attributes Hv) in H.
Qed.

Lemma missing_attribute_is_400_witness :
  run (Http.dispatch (PUT_reviews 7)
         (Sample.upload "http://localhost:8080/reviews/7"
            (PDict [("review_text", PStr "fine")])))
    Sample.five
  = mkResult (Responded (PDict POST_PUT_ERROR) 400) Sample.five []
  /\ run (Http.dispatch POST_reviews (Sample.upload "http://localhost:8080/reviews" PNone))
       Sample.five
     = mkResult (Failed TypeError) Sample.five [].
Proof.
  split.
  - apply (proj1 (missing_attribute_is_400 (E := mysql_strict) (PUT_reviews 7)
                    (Sample.upload "http://localhost:8080/reviews/7"
                       (PDict [("review_text", PStr "fine")]))
                    Sample.five _ eq_refl)).
    reflexivity.
  - apply (proj2 (proj2 (missing_attribute_is_400 (E := mysql_strict) POST_reviews
                           (Sample.upload "http://localhost:8080/reviews" PNone)
                           Sample.five _ eq_refl))).
    + now left.
    + discriminate.
Defined.

(** ** The POST routes catch what the database raises *)

Lemma post_business_caught {E : Engine} request db :
  exists body status,
    answer (run (post_business request) db) = Responded body status
    /\ In status [400; 201; 500]
    /\ (status <> 201 -> database (run (post_business request) db) = db).
Proof.
  unfold post_business, insert_business. unfold_handler.
  destruct (validate_business_post_put _ _) eqn:Hvalid.
  - apply validate_business_post_put_true in Hvalid.
    repeat match goal with
           | H : Forall _ (_ :: _) |- _ => inversion H; clear H; subst
           end.
    repeat match goal with
           | H : Py.contains _ _ = true |- _ =>
               apply contains_getitem in H; destruct H as [? H]; rewrite H
           end.
    cbn -[existsb].
    repeat (case_inner; cbn -[existsb]);
      do 2 eexists; (split; [reflexivity|]); simpl;
        (split; [tauto | intros; congruence || reflexivity]).
  - cbn. do 2 eexists. split; [reflexivity|]. simpl. tauto.
Qed.

Lemma post_review_caught {E : Engine} request db :
  exists body status,
    answer (run (post_review request) db) = Responded body status
    /\ In status [400; 404; 409; 201; 500]
    /\ (status <> 201 -> database (run (post_review request) db) = db).
Proof.
  unfold post_review, select_business, select_reviews_of_business, insert_review.
  unfold_handler.
  destruct (validate_business_post_put _ _) eqn:Hvalid.
  - apply validate_business_post_put_true in Hvalid.
    repeat match goal with
           | H : Forall _ (_ :: _) |- _ => inversion H; clear H; subst
           end.
    repeat match goal with
           | H : Py.contains _ _ = true |- _ =>
               apply contains_getitem in H; destruct H as [? H]; rewrite H
           end.
    cbn -[existsb filter].
    repeat (case_inner; cbn -[existsb filter]);
      do 2 eexists; (split; [reflexivity|]); simpl;
        (split; [tauto | intros; congruence || reflexivity]).
  - cbn. do 2 eexists. split; [reflexivity|]. simpl. tauto.
Qed.

(** A list or a string that passes the validation has no [[]] for a
    string key: the first lookup raises inside the [try], and the handler
    answers 500 before any statement. *)
Lemma post_business_unsubscriptable {E : Engine} request v db :
  http_body request = Json v ->
  (exists l, v = PList l) \/ (exists s, v = PStr s) ->
  exists verdict : bool,
    run (Http.post_business request) db
    = mkResult
        (if verdict
         then Responded (PDict [("Error", PStr "Unable to create business")]) 500
         else Responded (PDict POST_PUT_ERROR) 400)
        db [].
Proof.
  intros Hbody Hv. unfold run, Http.post_business, Http.get_json. rewrite Hbody.
  unfold bind at 1. unfold ret at 1. unfold bind at 1.
  destruct Hv as [[l ->] | [s ->]].
  - destruct (validate_iterable (PList l) BUSINESSES_REQUIRED_ATTRIBUTES)
      as [verdict ->]; exists verdict; now destruct verdict.
  - destruct (validate_iterable (PStr s) BUSINESSES_REQUIRED_ATTRIBUTES)
      as [verdict ->]; exists verdict; now destruct verdict.
Qed.

Lemma post_review_unsubscriptable {E : Engine} request v db :
  http_body request = Json v ->
  (exists l, v = PList l) \/ (exists s, v = PStr s) ->
  exists verdict : bool,
    run (Http.post_review request) db
    = mkResult
        (if verdict
         then Responded (PDict [("Error", PStr "Unable to create review")]) 500
         else Responded (PDict POST_PUT_ERROR) 400)
        db [].
Proof.
  intros Hbody Hv. unfold run, Http.post_review, Http.get_json. rewrite Hbody.
  unfold bind at 1. unfold ret at 1. unfold bind at 1.
  destruct Hv as [[l ->] | [s ->]].
  - destruct (validate_iterable (PList l) REVIEWS_REQUIRED_ATTRIBUTES)
      as [verdict ->]; exists verdict; now destruct verdict.
  - destruct (validate_iterable (PStr s) REVIEWS_REQUIRED_ATTRIBUTES)
      as [verdict ->]; exists verdict; now destruct verdict.
Qed.

(** X6: the two POST routes catch whatever is raised inside their [try].
    A request whose body is a JSON object, list or string is always
    answered, POST /businesses with 400, 201 or 500 and POST /reviews with
    400, 404, 409, 201 or 500, and unless the answer is 201 the database is
    the one the request found.  What escapes is raised before the [try]:
    the [TypeError] of the validation when the body is null or a number,
    and the abort of [get_json] when the body is not JSON (415) or does not
    parse (400); no statement is executed then. *)
Theorem post_routes_always_answer {E : Engine} route request db :
  route = POST_businesses \/ route = POST_reviews ->
  match http_body request with
  | NoJson =>
      run (Http.dispatch route request) db
      = mkResult (Failed (HTTPException 415)) db []
  | BadJson =>
      run (Http.dispatch route request) db
      = mkResult (Failed (HTTPException 400)) db []
  | Json PNone | Json (PInt _) =>
      run (Http.dispatch route request) db = mkResult (Failed TypeError) db []
  | Json (PDict _) | Json (PList _) | Json (PStr _) =>
      exists body status,
        answer (run (Http.dispatch route request) db) = Responded body status
        /\ In status (if match route with POST_businesses => true | _ => false end
                      then [400; 201; 500]
                      else [400; 404; 409; 201; 500])
        /\ (status <> 201 -> database (run (Http.dispatch route request) db) = db)
  end.
Proof.
  intros Hroute.
  destruct (http_body request) as [| |[|z|s|l|content]] eqn:Hbody.
  - destruct Hroute as [-> | ->]; unfold run; cbn [Http.dispatch];
      unfold Http.post_business, Http.post_review, Http.get_json;
      now rewrite Hbody.
  - destruct Hroute as [-> | ->]; unfold run; cbn [Http.dispatch];
      unfold Http.post_business, Http.post_review, Http.get_json;
      now rewrite Hbody.
  - destruct Hroute as [-> | ->]; unfold run; cbn [Http.dispatch];
      unfold Http.post_business, Http.post_review, Http.get_json;
      now rewrite Hbody.
  - destruct Hroute as [-> | ->]; unfold run; cbn [Http.dispatch];
      unfold Http.post_business, Http.post_review, Http.get_json;
      now rewrite Hbody.
  - destruct Hroute as [-> | ->]; cbn [Http.dispatch]; cbv iota.
    + destruct (post_business_unsubscriptable request (PStr s) db Hbody) as [[|] ->];
        [right; now exists s | |];
        do 2 eexists; (split; [reflexivity|]); simpl; tauto.
    + destruct (post_review_unsubscriptable request (PStr s) db Hbody) as [[|] ->];
        [right; now exists s | |];
        do 2 eexists; (split; [reflexivity|]); simpl; tauto.
  - destruct Hroute as [-> | ->]; cbn [Http.dispatch]; cbv iota.
    + destruct (post_business_unsubscriptable request (PList l) db Hbody) as [[|] ->];
        [left; now exists l | |];
        do 2 eexists; (split; [reflexivity|]); simpl; tauto.
    + destruct (post_review_unsubscriptable request (PList l) db Hbody) as [[|] ->];
        [left; now exists l | |];
        do 2 eexists; (split; [reflexivity|]); simpl; tauto.
  - destruct Hroute as [-> | ->]; cbn [Http.dispatch]; cbv iota.
    + rewrite (run_pointwise _ _ db
                 (fun w => post_business_on_object request content w Hbody)).
      apply post_business_caught.
    + rewrite (run_pointwise _ _ db
                 (fun w => post_review_on_object request content w Hbody)).
      apply post_review_caught.
Qed.

Lemma post_routes_always_answer_witness :
  (exists body status,
     answer (run (Http.dispatch POST_reviews
                    (Sample.upload "http://localhost:8080/reviews"
                       (PDict (Sample.review_by 1 4))))
               Sample.crowded)
     = Responded body status
     /\ In status [400; 404; 409; 201; 500])
  /\ run (Http.dispatch POST_businesses
            (Sample.upload "http://localhost:8080/businesses" (PInt 3)))
       Sample.crowded
     = mkResult (Failed TypeError) Sample.crowded [].
Proof.
  split.
  - destruct (post_routes_always_answer (E := mysql_strict) POST_reviews
                (Sample.upload "http://localhost:8080/reviews"
                   (PDict (Sample.review_by 1 4)))
                Sample.crowded (or_intror eq_refl))
      as (body & status & Ha & Hin & _).
    exists body, status. split; assumption.
  - exact (post_routes_always_answer (E := mysql_strict) POST_businesses
             (Sample.upload "http://localhost:8080/businesses" (PInt 3))
             Sample.crowded (or_introl eq_refl)).
Defined.

Example post_routes_by_body :
  let post v :=
    answer (run (Http.post_review (Sample.upload "http://localhost:8080/reviews" v))
              Sample.five) in
  post PNone = Failed TypeError
  /\ post (PStr "user_id business_id stars")
     = Responded (PDict [("Error", PStr "Unable to create review")]) 500
  /\ post (PList [PStr "user_id"; PStr "business_id"; PStr "stars"])
     = Responded (PDict [("Error", PStr "Unable to create review")]) 500
  /\ post (PStr "stars") = Responded (PDict POST_PUT_ERROR) 400
  /\ Http.status_of
       (answer (run (Http.post_review
                       (mkHttpRequest "http://localhost:8080/reviews"
                          "http://localhost:8080/reviews" NoJson))
                  Sample.five)) = 415.
Proof. repeat split; reflexivity. Qed.

(** ** The integrity of the tables is kept *)

Section Keeps.
Variable I : Database -> Prop.

Lemma keeps_ret {A : Type} (a : A) : keeps I (ret a).
Proof. intros w c w' Hc Hw [= <- <-]. now split. Qed.

Lemma keeps_return {A : Type} r : keeps I (@return_ A r).
Proof. intros w c w' Hc Hw [= <- <-]. now split. Qed.

Lemma keeps_raise {A : Type} e : keeps I (@raise A e).
Proof. intros w c w' Hc Hw [= <- <-]. now split. Qed.

Lemma keeps_or_raise {A : Type} e (o : option A) : keeps I (or_raise e o).
Proof. destruct o; [apply keeps_ret | apply keeps_raise]. Qed.

Lemma keeps_one_or_none {A : Type} (rows : list A) : keeps I (one_or_none rows).
Proof.
  destruct rows as [|x [|y rows]];
    [apply keeps_ret | apply keeps_ret | apply keeps_raise].
Qed.

Lemma keeps_query {A : Type} (f : Database -> A) : keeps I (query f).
Proof. intros w c w' Hc Hw [= <- <-]. now split. Qed.

Lemma keeps_select_last_insert_id : keeps I select_last_insert_id.
Proof. intros w c w' Hc Hw [= <- <-]. now split. Qed.

Lemma keeps_commit : keeps I commit.
Proof. intros w c w' Hc Hw [= <- <-]. now split. Qed.

Lemma keeps_modify s f :
  (forall db id db' id', I db -> f db id = Some (db', id') -> I db') ->
  keeps I (modify s f).
Proof.
  intros Hf w c w' Hc Hw. unfold modify.
  destruct (f (working w) (last_insert_id w)) as [[db id]|] eqn:E;
    intros [= <- <-]; simpl; split; try assumption.
  exact (Hf _ _ _ _ Hw E).
Qed.

Lemma keeps_bind {A B : Type} (m : M A) (k : A -> M B) :
  keeps I m -> (forall a, keeps I (k a)) -> keeps I (bind m k).
Proof.
  intros Hm Hk w c w' Hc Hw. unfold bind.
  destruct (m w) as [[a | r | e] w1] eqn:E;
    destruct (Hm _ _ _ Hc Hw E) as [Hc1 Hw1].
  - intros Hka. exact (Hk a _ _ _ Hc1 Hw1 Hka).
  - intros [= <- <-]. now split.
  - intros [= <- <-]. now split.
Qed.

Lemma keeps_with_connect {A : Type} (m : M A) : keeps I m -> keeps I (with_connect m).
Proof.
  intros Hm w c w' Hc Hw. unfold with_connect.
  destruct (m w) as [c1 w1] eqn:E. intros [= <- <-]. simpl.
  destruct (Hm _ _ _ Hc Hw E) as [Hc1 _]. now split.
Qed.

Lemma keeps_try_except {A : Type} (m : M A) h :
  keeps I m -> (forall e, keeps I (h e)) -> keeps I (try_except m h).
Proof.
  intros Hm Hh w c w' Hc Hw. unfold try_except.
  destruct (m w) as [[a | r | e] w1] eqn:E;
    destruct (Hm _ _ _ Hc Hw E) as [Hc1 Hw1].
  - intros [= <- <-]. now split.
  - intros [= <- <-]. now split.
  - intros Hhe. exact (Hh e _ _ _ Hc1 Hw1 Hhe).
Qed.

End Keeps.

Ltac keeps_steps :=
  repeat first
    [ apply keeps_with_connect
    | apply keeps_try_except; [| intros ?]
    | apply keeps_bind; [| intros ?]
    | apply keeps_return | apply keeps_ret | apply keeps_raise
    | apply keeps_or_raise | apply keeps_one_or_none | apply keeps_query
    | apply keeps_select_last_insert_id | apply keeps_commit
    | match goal with
      | |- keeps _ (if ?b then _ else _) => destruct b
      | |- keeps _ (match ?x with _ => _ end) => destruct x
      end ].

(** Deleting rows keeps a key unique. *)
Lemma unique_keys_after_delete {Row : Type} (key : Row -> Z) (kept : Row -> bool)
    (rows : list Row) (Hunique : NoDup (map key rows)) :
  NoDup (map key (filter kept rows)).
Proof.
  induction rows as [|row rows IH]; simpl in *; [exact Hunique|].
  inversion Hunique as [|k ks Hnotin Hrest]; subst.
  destruct (kept row); simpl; [|auto].
  constructor; [|auto]. intros Hin. apply Hnotin.
  apply in_map_iff in Hin. destruct Hin as (x & Hx & Hin).
  apply filter_In in Hin. rewrite <- Hx. apply in_map. tauto.
Qed.

Lemma map_key_map {A : Type} (key : A -> Z) (g : A -> A) (l : list A) :
  (forall x, key (g x) = key x) -> map key (map g l) = map key l.
Proof. intros H. rewrite map_map. apply map_ext. exact H. Qed.

Section Integrity.
Context {E : Engine}.

Lemma insert_business_well_formed v_o v_n v_a v_c v_s v_z :
  keeps well_formed (insert_business v_o v_n v_a v_c v_s v_z).
Proof.
  apply keeps_modify. intros db id db' id' (Hb & Hr & Hfk). cbv beta zeta.
  destruct (to_int v_o), (to_varchar 50 v_n), (to_varchar 100 v_a),
    (to_varchar 50 v_c), (to_varchar 2 v_s), (to_int v_z); try discriminate.
  destruct (existsb _ (businesses db)) eqn:Hpk; [discriminate|].
  intros [= <- <-]. repeat split; simpl.
  - apply (NoDup_app_new business_id); [assumption|]. simpl.
    intros Hin. apply in_map_iff in Hin. destruct Hin as (b & Hid & Hin).
    apply Bool.not_true_iff_false in Hpk. apply Hpk, existsb_exists.
    exists b. split; [assumption | now apply Z.eqb_eq].
  - assumption.
  - eapply Forall_impl; [|exact Hfk]. intros r (b & Hin & Hid).
    exists b. split; [apply in_or_app; now left | assumption].
Qed.

Lemma update_business_well_formed v_o v_n v_a v_c v_s v_z p :
  keeps well_formed (update_business v_o v_n v_a v_c v_s v_z p).
Proof.
  apply keeps_modify. intros db id db' id' (Hb & Hr & Hfk). cbv beta zeta.
  destruct (to_int v_o), (to_varchar 50 v_n), (to_varchar 100 v_a),
    (to_varchar 50 v_c), (to_varchar 2 v_s), (to_int v_z); try discriminate.
  intros [= <- <-]. repeat split; simpl.
  - rewrite map_key_map; [assumption|].
    intros b. now destruct (param_eq (business_id b) p).
  - assumption.
  - eapply Forall_impl; [|exact Hfk]. intros r (b & Hin & Hid).
    eexists. split; [apply in_map; exact Hin|].
    now destruct (param_eq (business_id b) p).
Qed.

Lemma delete_from_businesses_well_formed p :
  keeps well_formed (delete_from_businesses p).
Proof.
  apply keeps_modify. intros db id db' id' (Hb & Hr & Hfk). cbv beta zeta. intros [= <- <-].
  repeat split; simpl.
  - now apply unique_keys_after_delete.
  - now apply unique_keys_after_delete.
  - apply Forall_forall. intros r Hin. apply filter_In in Hin.
    destruct Hin as [Hin Hkept]. rewrite Forall_forall in Hfk.
    destruct (Hfk r Hin) as (b & Hb' & Hid). exists b. split; [|assumption].
    apply filter_In. split; [assumption|].
    destruct (param_eq (business_id b) p) eqn:Hgone; [|reflexivity].
    apply Bool.negb_true_iff, Bool.not_true_iff_false in Hkept.
    exfalso. apply Hkept, existsb_exists. exists b. split; [assumption|].
    rewrite Hgone. simpl. now apply Z.eqb_eq.
Qed.

Lemma insert_review_well_formed v_u v_b v_s v_t :
  keeps well_formed (insert_review v_u v_b v_s v_t).
Proof.
  apply keeps_modify. intros db id db' id' (Hb & Hr & Hfk). cbv beta zeta.
  destruct (to_int v_u), (to_bigint v_b), (to_int v_s); try discriminate.
  destruct (match v_t with Some v => to_varchar_null 1000 v | None => Some None end);
    try discriminate.
  destruct (existsb _ (reviews db)) eqn:Hpk; [discriminate|].
  destruct (existsb _ (businesses db)) eqn:Hfk'; [|discriminate].
  intros [= <- <-]. repeat split; simpl.
  - assumption.
  - apply (NoDup_app_new review_id); [assumption|]. simpl.
    intros Hin. apply in_map_iff in Hin. destruct Hin as (r & Hid & Hin).
    apply Bool.not_true_iff_false in Hpk. apply Hpk, existsb_exists.
    exists r. split; [assumption | now apply Z.eqb_eq].
  - apply Forall_app. split; [assumption|]. constructor; [|constructor].
    apply existsb_exists in Hfk'. destruct Hfk' as (b & Hin & Hid).
    exists b. split; [assumption | now apply Z.eqb_eq].
Qed.

Lemma update_review_well_formed v_s v_t p :
  keeps well_formed (update_review v_s v_t p).
Proof.
  apply keeps_modify. intros db id db' id' (Hb & Hr & Hfk). cbv beta zeta.
  destruct (to_int v_s); try discriminate.
  destruct (match v_t with
            | Some v => option_map Some (to_varchar_null 1000 v)
            | None => Some None
            end); try discriminate.
  intros [= <- <-]. repeat split; simpl.
  - assumption.
  - rewrite map_key_map; [assumption|].
    intros r. now destruct (param_eq (review_id r) p).
  - apply Forall_map. eapply Forall_impl; [|exact Hfk]. intros r (b & Hin & Hid).
    exists b. split; [assumption|].
    now destruct (param_eq (review_id r) p).
Qed.

Lemma delete_from_reviews_well_formed p :
  keeps well_formed (delete_from_reviews p).
Proof.
  apply keeps_modify. intros db id db' id' (Hb & Hr & Hfk). cbv beta zeta. intros [= <- <-].
  repeat split; simpl.
  - assumption.
  - now apply unique_keys_after_delete.
  - apply Forall_forall. intros r Hin. apply filter_In in Hin.
    rewrite Forall_forall in Hfk. apply Hfk. tauto.
Qed.

Lemma dispatch_well_formed route request :
  keeps well_formed (dispatch route request).
Proof.
  destruct route; simpl.
  - unfold post_business, item. keeps_steps. apply insert_business_well_formed.
  - unfold put_business, select_business, item. keeps_steps.
    apply update_business_well_formed.
  - unfold delete_business, select_business. keeps_steps.
    apply delete_from_businesses_well_formed.
  - unfold post_review, select_business, select_reviews_of_business, item.
    keeps_steps; apply insert_review_well_formed.
  - unfold put_review, select_review, item. keeps_steps;
      apply update_review_well_formed.
  - unfold delete_review, select_review. keeps_steps.
    apply delete_from_reviews_well_formed.
Qed.

End Integrity.

(** X7: the six writing routes keep the keys of the schema: when the ids
    of the businesses and of the reviews are unique and every review
    refers to a business of the table, the same holds of the database
    after the request, whatever its payload and its answer. *)
Theorem writing_routes_keep_integrity {E : Engine} route request db :
  well_formed db ->
  well_formed (database (run (dispatch route request) db)).
Proof.
  intros Hwf. unfold run.
  destruct (dispatch route request (mkWorld db db 0 [])) as [c w] eqn:Hrun.
  simpl. exact (proj1 (dispatch_well_formed route request (mkWorld db db 0 []) c w Hwf Hwf Hrun)).
Qed.

(** ** PUT /businesses/{id} on a row that exists *)

Lemma filter_found {A : Type} (key : A -> Z) (l : list A) x :
  NoDup (map key l) -> In x l ->
  filter (fun y => key y =? key x) l = [x].
Proof.
  intros Hnd Hin. rewrite (filter_by_key _ _ _ Hnd).
  destruct (find _ l) as [y|] eqn:Hfind.
  - apply find_key in Hfind. destruct Hfind as [Hy Hk].
    f_equal. clear - Hnd Hin Hy Hk. induction l as [|a l IH]; [contradiction|].
    simpl in Hnd. inversion Hnd as [|k ks Hnotin Hnd']; subst.
    destruct Hin as [-> | Hin], Hy as [-> | Hy]; auto.
    + exfalso. apply Hnotin. rewrite <- Hk. now apply in_map.
    + exfalso. apply Hnotin. rewrite Hk. now apply in_map.
  - exfalso. apply (find_none _ _ Hfind) in Hin. now rewrite Z.eqb_refl in Hin.
Qed.

(** The two ways of a PUT with a complete payload on a row that exists: the
    engine takes the six values, or it rejects the statement. *)
Lemma put_business_outcome {E : Engine} request id db old :
  NoDup (map business_id (businesses db)) ->
  validate_business_post_put (get_json request) BUSINESSES_REQUIRED_ATTRIBUTES = true ->
  In old (businesses db) -> business_id old = id ->
  run (put_business request id) db
  = match converted_business (get_json request) id with
    | Some new =>
        mkResult
          (Responded
             (PDict (("id", PInt id)
                     :: echo (get_json request) BUSINESSES_REQUIRED_ATTRIBUTES
                     ++ [("self", PStr (base_url request))]))
             200)
          (mkDatabase (map (replace_business id new) (businesses db)) (reviews db)
             (businesses_auto_increment db) (reviews_auto_increment db))
          [Select; Update; Commit]
    | None => mkResult (Failed DatabaseError) db [Select; Update]
    end.
Proof.
  intros Hnd Hvalid Hin <-.
  unfold put_business, select_business, update_business, converted_business,
    convert, echo.
  unfold_handler. rewrite Hvalid.
  apply validate_business_post_put_true in Hvalid.
  unfold BUSINESSES_REQUIRED_ATTRIBUTES in Hvalid. cbn -[filter].
  repeat match goal with
         | H : Forall _ (_ :: _) |- _ => inversion H; clear H; subst
         end.
  repeat match goal with
         | H : Py.contains _ _ = true |- _ =>
             apply contains_getitem in H; destruct H as [? H]; rewrite H
         end.
  cbn -[filter]. rewrite select_by_key, (filter_found _ _ _ Hnd Hin).
  cbn -[filter].
  assert (Hmap : forall new,
             map (fun b => if param_eq (business_id b) (PInt (business_id old))
                           then mkBusiness (business_id b) (owner_id new) (name new)
                                  (street_address new) (city new) (state new)
                                  (zip_code new)
                           else b) (businesses db)
             = map (replace_business (business_id old)
                      (mkBusiness (business_id old) (owner_id new) (name new)
                         (street_address new) (city new) (state new)
                         (zip_code new))) (businesses db)).
  { intros new. apply map_ext. intros b. unfold replace_business.
    rewrite param_eq_int. destruct (Z.eqb_spec (business_id b) (business_id old));
      congruence. }
  repeat (case_inner; cbn -[filter]); try reflexivity.
  match goal with
  | |- context [mkBusiness (business_id old) ?o ?n ?a ?c ?s ?z] =>
      specialize (Hmap (mkBusiness 0 o n a c s z))
  end.
  simpl in Hmap. now rewrite Hmap.
Qed.

Lemma converted_business_id {E : Engine} content id new :
  converted_business content id = Some new -> business_id new = id.
Proof.
  unfold converted_business.
  repeat case_inner; try discriminate. now intros [= <-].
Qed.

Lemma replace_business_id id new b :
  business_id new = id -> business_id (replace_business id new b) = business_id b.
Proof.
  intros Hnew. unfold replace_business.
  destruct (Z.eqb_spec (business_id b) id); congruence.
Qed.

Lemma replace_business_twice id new l :
  business_id new = id ->
  map (replace_business id new) (map (replace_business id new) l)
  = map (replace_business id new) l.
Proof.
  intros Hnew. rewrite map_map. apply map_ext. intros b.
  unfold replace_business. destruct (business_id b =? id) eqn:Hb.
  - now rewrite Hnew, Z.eqb_refl.
  - now rewrite Hb.
Qed.

Lemma find_replaced id new old l :
  In old l -> business_id old = id -> business_id new = id ->
  find (fun b => business_id b =? id) (map (replace_business id new) l) = Some new.
Proof.
  intros Hin Hold Hnew. induction l as [|a l IH]; [contradiction|]. simpl.
  unfold replace_business at 1 2.
  destruct (business_id a =? id) eqn:Ha.
  - now rewrite Hnew, Z.eqb_refl.
  - rewrite Ha. destruct Hin as [-> | Hin]; [|auto].
    rewrite Hold, Z.eqb_refl in Ha. discriminate.
Qed.

(** X8: a PUT with a complete payload that the engine takes, on the id of
    a row that exists: the answer is 200; the reviews and the businesses
    with another id are as they were; a GET of the id then answers the
    row the engine made of the payload; and the same PUT once more gives
    the same answer and leaves that database as it is. *)
Theorem put_business_replaces_the_row {E : Engine} request id db old new :
  NoDup (map business_id (businesses db)) ->
  validate_business_post_put (get_json request) BUSINESSES_REQUIRED_ATTRIBUTES = true ->
  In old (businesses db) -> business_id old = id ->
  converted_business (get_json request) id = Some new ->
  status_of (answer (run (put_business request id) db)) = 200
  /\ reviews (database (run (put_business request id) db)) = reviews db
  /\ (forall b, In b (businesses db) -> business_id b <> id ->
                In b (businesses (database (run (put_business request id) db))))
  /\ (forall again,
        answer (run (get_business again id)
                  (database (run (put_business request id) db)))
        = Responded
            (PDict [("owner_id", PInt (owner_id new));
                    ("name", PStr (name new));
                    ("street_address", PStr (street_address new));
                    ("city", PStr (city new));
                    ("state", PStr (state new));
                    ("zip_code", PInt (zip_code new));
                    ("self", PStr (base_url again));
                    ("id", PInt id)])
            200)
  /\ run (put_business request id) (database (run (put_business request id) db))
     = run (put_business request id) db.
Proof.
  intros Hnd Hvalid Hin Hold Hconv.
  pose proof (converted_business_id _ _ _ Hconv) as Hnew.
  rewrite (put_business_outcome request id db old Hnd Hvalid Hin Hold), Hconv.
  simpl answer. simpl database.
  set (db' := mkDatabase (map (replace_business id new) (businesses db))
                (reviews db) (businesses_auto_increment db)
                (reviews_auto_increment db)).
  assert (Hnd' : NoDup (map business_id (businesses db'))).
  { simpl. rewrite map_key_map; [assumption|].
    intros b. now apply replace_business_id. }
  assert (Hin' : In new (businesses db')).
  { simpl. apply in_map_iff. exists old. split; [|assumption].
    unfold replace_business. now rewrite Hold, Z.eqb_refl. }
  split; [reflexivity|]. split; [reflexivity|]. split; [|split].
  - intros b Hb Hne. simpl. apply in_map_iff. exists b. split; [|assumption].
    unfold replace_business. now apply Z.eqb_neq in Hne; rewrite Hne.
  - intros again. rewrite (get_business_lookup again id db' Hnd'). simpl.
    now rewrite (find_replaced id new old _ Hin Hold Hnew).
  - rewrite (put_business_outcome request id db' new Hnd' Hvalid Hin' Hnew), Hconv.
    unfold db'. simpl. now rewrite replace_business_twice.
Qed.

Lemma put_business_replaces_the_row_witness :
  answer (run (get_business (Sample.get "http://localhost:8080/businesses/2") 2)
            (database
               (run (put_business
                       (Sample.send "http://localhost:8080/businesses/2"
                          [("owner_id", PInt 9); ("name", PStr "B");
                           ("street_address", PStr "2 Main"); ("city", PStr "Y");
                           ("state", PStr "OR"); ("zip_code", PInt 97001)]) 2)
                  Sample.three)))
  = Responded
      (PDict [("owner_id", PInt 9); ("name", PStr "B");
              ("street_address", PStr "2 Main"); ("city", PStr "Y");
              ("state", PStr "OR"); ("zip_code", PInt 97001);
              ("self", PStr "http://localhost:8080/businesses/2");
              ("id", PInt 2)])
      200.
Proof.
  assert (Hnd : NoDup (map business_id (businesses Sample.three)))
    by (simpl; repeat constructor; simpl; intuition discriminate).
  assert (Hin : In (Sample.business 2 8) (businesses Sample.three))
    by (simpl; tauto).
  assert (Hconv : converted_business
                    [("owner_id", PInt 9); ("name", PStr "B");
                     ("street_address", PStr "2 Main"); ("city", PStr "Y");
                     ("state", PStr "OR"); ("zip_code", PInt 97001)] 2
                  = Some (mkBusiness 2 9 "B" "2 Main" "Y" "OR" 97001))
    by reflexivity.
  apply (put_business_replaces_the_row (E := mysql_strict)
           (Sample.send "http://localhost:8080/businesses/2"
              [("owner_id", PInt 9); ("name", PStr "B");
               ("street_address", PStr "2 Main"); ("city", PStr "Y");
               ("state", PStr "OR"); ("zip_code", PInt 97001)])
           2 Sample.three (Sample.business 2 8)
           (mkBusiness 2 9 "B" "2 Main" "Y" "OR" 97001)
           Hnd eq_refl Hin eq_refl Hconv).
Defined.

(** X9: when the engine rejects a value of a complete payload, a PUT on
    the id of a row that exists lets [DatabaseError] escape: there is no
    [try] around the statement as in the POST handlers, and nothing is
    committed. *)
Theorem put_business_rejected_raises {E : Engine} request id db old :
  NoDup (map business_id (businesses db)) ->
  validate_business_post_put (get_json request) BUSINESSES_REQUIRED_ATTRIBUTES = true ->
  In old (businesses db) -> business_id old = id ->
  converted_business (get_json request) id = None ->
  run (put_business request id) db
  = mkResult (Failed DatabaseError) db [Select; Update].
Proof.
  intros Hnd Hvalid Hin Hold Hconv.
  now rewrite (put_business_outcome request id db old Hnd Hvalid Hin Hold), Hconv.
Qed.

Lemma put_business_rejected_raises_witness :
  answer (run (put_business
                 (Sample.send "http://localhost:8080/businesses/2"
                    [("owner_id", PInt 9); ("name", PStr "B");
                     ("street_address", PStr "2 Main"); ("city", PStr "Y");
                     ("state", PStr "Oregon"); ("zip_code", PInt 97001)]) 2)
            Sample.three)
  = Failed DatabaseError.
Proof.
  assert (Hnd : NoDup (map business_id (businesses Sample.three)))
    by (simpl; repeat constructor; simpl; intuition discriminate).
  assert (Hin : In (Sample.business 2 8) (businesses Sample.three))
    by (simpl; tauto).
  assert (Hconv : converted_business
                    [("owner_id", PInt 9); ("name", PStr "B");
                     ("street_address", PStr "2 Main"); ("city", PStr "Y");
                     ("state", PStr "Oregon"); ("zip_code", PInt 97001)] 2
                  = None)
    by reflexivity.
  rewrite (put_business_rejected_raises (E := mysql_strict)
             (Sample.send "http://localhost:8080/businesses/2"
                [("owner_id", PInt 9); ("name", PStr "B");
                 ("street_address", PStr "2 Main"); ("city", PStr "Y");
                 ("state", PStr "Oregon"); ("zip_code", PInt 97001)])
             2 Sample.three (Sample.business 2 8) Hnd eq_refl Hin eq_refl Hconv).
  reflexivity.
Defined.

(** ** DELETE /businesses/{id} and DELETE /reviews/{id} *)

Lemma key_injective {A : Type} (key : A -> Z) (l : list A) x y :
  NoDup (map key l) -> In x l -> In y l -> key x = key y -> x = y.
Proof.
  induction l as [|a l IH]; [contradiction|]. simpl.
  intros Hnd. inversion Hnd as [|k ks Hnotin Hnd']; subst.
  intros [-> | Hx] [-> | Hy] Heq; auto.
  - exfalso. apply Hnotin. rewrite Heq. now apply in_map.
  - exfalso. apply Hnotin. rewrite <- Heq. now apply in_map.
Qed.

Lemma find_absent {A : Type} (key : A -> Z) (l : list A) id :
  (forall x, In x l -> key x <> id) -> find (fun x => key x =? id) l = None.
Proof.
  intros H. induction l as [|a l IH]; simpl; [reflexivity|].
  destruct (Z.eqb_spec (key a) id) as [Heq | _].
  - exfalso. exact (H a (or_introl eq_refl) Heq).
  - apply IH. intros x Hx. apply H. now right.
Qed.

Lemma cascade_by_business_id {E : Engine} db id old :
  In old (businesses db) -> business_id old = id ->
  filter (fun r =>
            negb (existsb (fun b => param_eq (business_id b) (PInt id)
                                    && (business_id b =? review_business_id r))
                    (businesses db)))
    (reviews db)
  = filter (fun r => negb (review_business_id r =? id)) (reviews db).
Proof.
  intros Hin Hold. apply filter_ext. intros r. f_equal.
  destruct (Z.eqb_spec (review_business_id r) id) as [Heq | Hne].
  - apply existsb_exists. exists old. split; [assumption|].
    now rewrite param_eq_int, Hold, Heq, !Z.eqb_refl.
  - apply Bool.not_true_iff_false. intros Hex. apply existsb_exists in Hex.
    destruct Hex as (b & _ & Hb). rewrite param_eq_int in Hb.
    apply Bool.andb_true_iff in Hb. destruct Hb as [H1 H2].
    apply Z.eqb_eq in H1, H2. congruence.
Qed.

Lemma delete_business_outcome {E : Engine} request id db :
  NoDup (map business_id (businesses db)) ->
  run (delete_business request id) db
  = match find (fun b => business_id b =? id) (businesses db) with
    | Some _ =>
        mkResult (Responded (PStr EmptyString) 204)
          (mkDatabase
             (filter (fun b => negb (business_id b =? id)) (businesses db))
             (filter (fun r => negb (review_business_id r =? id)) (reviews db))
             (businesses_auto_increment db) (reviews_auto_increment db))
          [Select; Delete; Commit]
    | None =>
        mkResult
          (Responded
             (PDict [("Error", PStr "No business with this business_id exists")])
             404)
          db [Select]
    end.
Proof.
  intros Hnd.
  unfold delete_business, select_business, delete_from_businesses. unfold_handler.
  cbn -[filter]. rewrite select_by_key, (filter_by_key _ _ _ Hnd).
  destruct (find _ (businesses db)) as [old|] eqn:Hfind; [|reflexivity].
  apply find_key in Hfind. destruct Hfind as [Hin Hold].
  cbn -[filter existsb].
  rewrite (cascade_by_business_id db id old Hin Hold).
  f_equal. f_equal. apply filter_ext. intros b. now rewrite param_eq_int.
Qed.

(** X10: DELETE /businesses/{id} on a well-formed database that has the
    business answers 204 and removes the business and, by the cascade of
    the foreign key, every review of it; the other businesses and the
    reviews of other businesses stay.  After it, GET and DELETE of the id
    answer 404, and so does GET of each review that was attached. *)
Theorem delete_business_cascades {E : Engine} request id db old :
  well_formed db ->
  In old (businesses db) -> business_id old = id ->
  status_of (answer (run (delete_business request id) db)) = 204
  /\ (forall b, In b (businesses (database (run (delete_business request id) db)))
                <-> In b (businesses db) /\ business_id b <> id)
  /\ (forall r, In r (reviews (database (run (delete_business request id) db)))
                <-> In r (reviews db) /\ review_business_id r <> id)
  /\ (forall again,
        status_of
          (answer (run (get_business again id)
                     (database (run (delete_business request id) db)))) = 404)
  /\ (forall again,
        status_of
          (answer (run (delete_business again id)
                     (database (run (delete_business request id) db)))) = 404)
  /\ (forall again r,
        In r (reviews db) -> review_business_id r = id ->
        status_of
          (answer (run (get_review again (review_id r))
                     (database (run (delete_business request id) db)))) = 404).
Proof.
  intros (Hb & Hr & _) Hin Hold.
  rewrite (delete_business_outcome request id db Hb).
  destruct (find _ (businesses db)) as [found|] eqn:Hfind.
  2:{ exfalso. apply (find_none _ _ Hfind) in Hin.
      now rewrite Hold, Z.eqb_refl in Hin. }
  simpl answer. simpl database.
  set (db' := mkDatabase _ _ _ _).
  assert (Hb' : NoDup (map business_id (businesses db')))
    by (simpl; now apply unique_keys_after_delete).
  assert (Hr' : NoDup (map review_id (reviews db')))
    by (simpl; now apply unique_keys_after_delete).
  assert (Hgone : find (fun b => business_id b =? id) (businesses db') = None).
  { apply find_absent. simpl. intros b Hb0. apply filter_In in Hb0.
    destruct Hb0 as [_ Hne]. now apply Bool.negb_true_iff, Z.eqb_neq in Hne. }
  split; [reflexivity|]. split; [|split; [|split; [|split]]].
  - intros b. simpl. rewrite filter_In, Bool.negb_true_iff, Z.eqb_neq. tauto.
  - intros r. simpl. rewrite filter_In, Bool.negb_true_iff, Z.eqb_neq. tauto.
  - intros again. now rewrite (get_business_lookup again id db' Hb'), Hgone.
  - intros again. now rewrite (delete_business_outcome again id db' Hb'), Hgone.
  - intros again r Hrin Hrid.
    rewrite (get_review_lookup again (review_id r) db' Hr').
    rewrite find_absent; [reflexivity|].
    simpl. intros r' Hr'in Heq. apply filter_In in Hr'in.
    destruct Hr'in as [Hr'in Hne].
    apply Bool.negb_true_iff, Z.eqb_neq in Hne.
    apply Hne. now rewrite (key_injective review_id _ r' r Hr Hr'in Hrin Heq).
Qed.

Example five_well_formed : well_formed Sample.five.
Proof.
  repeat split; simpl.
  - repeat constructor; simpl; intuition discriminate.
  - repeat constructor; simpl; intuition discriminate.
  - repeat constructor. exists (Sample.business 2 8). simpl. tauto.
Qed.

Lemma delete_business_cascades_witness :
  status_of
    (answer (run (delete_business (Sample.get "http://localhost:8080/businesses/2") 2)
               Sample.five)) = 204
  /\ status_of
       (answer (run (get_review (Sample.get "http://localhost:8080/reviews/7") 7)
                  (database
                     (run (delete_business
                             (Sample.get "http://localhost:8080/businesses/2") 2)
                        Sample.five)))) = 404.
Proof.
  assert (Hin : In (Sample.business 2 8) (businesses Sample.five))
    by (simpl; tauto).
  destruct (delete_business_cascades
              (Sample.get "http://localhost:8080/businesses/2") 2 Sample.five
              (Sample.business 2 8) five_well_formed Hin eq_refl)
    as (H204 & _ & _ & _ & _ & Hreview).
  split; [exact H204|].
  apply (Hreview (Sample.get "http://localhost:8080/reviews/7")
           (mkReview 7 3 2 3 (Some "ok"))).
  - simpl. tauto.
  - reflexivity.
Defined.

Lemma delete_review_outcome {E : Engine} request id db :
  NoDup (map review_id (reviews db)) ->
  run (delete_review request id) db
  = match find (fun r => review_id r =? id) (reviews db) with
    | Some _ =>
        mkResult (Responded (PStr EmptyString) 204)
          (mkDatabase (businesses db)
             (filter (fun r => negb (review_id r =? id)) (reviews db))
             (businesses_auto_increment db) (reviews_auto_increment db))
          [Select; Delete; Commit]
    | None =>
        mkResult
          (Responded (PDict [("Error", PStr "No review with this review_id exists")])
             404)
          db [Select]
    end.
Proof.
  intros Hnd.
  unfold delete_review, select_review, delete_from_reviews. unfold_handler.
  cbn -[filter]. rewrite select_by_key, (filter_by_key _ _ _ Hnd).
  destruct (find _ (reviews db)) as [old|]; [|reflexivity].
  cbn -[filter]. f_equal. f_equal. apply filter_ext. intros r.
  now rewrite param_eq_int.
Qed.

(** X11: DELETE /reviews/{id} on a table with unique ids that has the
    review answers 204, removes that review and nothing else, and leaves
    the businesses as they are; after it, GET and DELETE of the id answer
    404. *)
Theorem delete_review_removes_one {E : Engine} request id db old :
  NoDup (map review_id (reviews db)) ->
  In old (reviews db) -> review_id old = id ->
  status_of (answer (run (delete_review request id) db)) = 204
  /\ businesses (database (run (delete_review request id) db)) = businesses db
  /\ (forall r, In r (reviews (database (run (delete_review request id) db)))
                <-> In r (reviews db) /\ r <> old)
  /\ (forall again,
        status_of
          (answer (run (get_review again id)
                     (database (run (delete_review request id) db)))) = 404)
  /\ (forall again,
        status_of
          (answer (run (delete_review again id)
                     (database (run (delete_review request id) db)))) = 404).
Proof.
  intros Hr Hin Hold.
  rewrite (delete_review_outcome request id db Hr).
  destruct (find _ (reviews db)) as [found|] eqn:Hfind.
  2:{ exfalso. apply (find_none _ _ Hfind) in Hin.
      now rewrite Hold, Z.eqb_refl in Hin. }
  simpl answer. simpl database.
  set (db' := mkDatabase _ _ _ _).
  assert (Hr' : NoDup (map review_id (reviews db')))
    by (simpl; now apply unique_keys_after_delete).
  assert (Hgone : find (fun r => review_id r =? id) (reviews db') = None).
  { apply find_absent. simpl. intros r Hr0. apply filter_In in Hr0.
    destruct Hr0 as [_ Hne]. now apply Bool.negb_true_iff, Z.eqb_neq in Hne. }
  split; [reflexivity|]. split; [reflexivity|]. split; [|split].
  - intros r. simpl. rewrite filter_In, Bool.negb_true_iff, Z.eqb_neq.
    split; intros [Hrin Hne]; (split; [assumption|]).
    + intros ->. contradiction.
    + intros Heq. apply Hne. rewrite <- Hold in Heq.
      exact (key_injective review_id _ r old Hr Hrin Hin Heq).
  - intros again. now rewrite (get_review_lookup again id db' Hr'), Hgone.
  - intros again. now rewrite (delete_review_outcome again id db' Hr'), Hgone.
Qed.

Lemma delete_review_removes_one_witness :
  status_of
    (answer (run (delete_review (Sample.get "http://localhost:8080/reviews/7") 7)
               Sample.five)) = 204
  /\ status_of
       (answer (run (delete_review (Sample.get "http://localhost:8080/reviews/7") 7)
                  (database
                     (run (delete_review
                             (Sample.get "http://localhost:8080/reviews/7") 7)
                        Sample.five)))) = 404.
Proof.
  assert (Hin : In (mkReview 7 3 2 3 (Some "ok")) (reviews Sample.five))
    by (simpl; tauto).
  destruct (delete_review_removes_one
              (Sample.get "http://localhost:8080/reviews/7") 7 Sample.five
              (mkReview 7 3 2 3 (Some "ok")) (proj1 (proj2 five_well_formed))
              Hin eq_refl)
    as (H204 & _ & _ & _ & Hagain).
  split; [exact H204 | apply Hagain].
Defined.

Lemma writing_routes_keep_integrity_witness :
  well_formed Sample.five
  /\ well_formed
       (database (run (dispatch (DELETE_businesses 2)
                         (Sample.get "http://localhost:8080/businesses/2"))
                    Sample.five)).
Proof.
  split; [exact five_well_formed|].
  apply (writing_routes_keep_integrity (DELETE_businesses 2)
           (Sample.get "http://localhost:8080/businesses/2") Sample.five).
  exact five_well_formed.
Defined.

(** ** POST /reviews: what it creates *)

(** What a 201 answer of [post_review] tells. *)
Lemma post_review_created {E : Engine} request db body v_user v_business :
  Py.getitem (get_json request) "user_id" = Some v_user ->
  Py.getitem (get_json request) "business_id" = Some v_business ->
  answer (run (post_review request) db) = Responded body 201 ->
  exists new d,
    review_id new = reviews_auto_increment db
    /\ stores_review (get_json request) new
    /\ ~ In (reviews_auto_increment db) (map review_id (reviews db))
    /\ (forall row, In row (reviews_of db v_business) ->
                    Py.eq_int (user_id row) v_user = false)
    /\ database (run (post_review request) db)
       = mkDatabase (businesses db) (reviews db ++ [new])
           (businesses_auto_increment db) (reviews_auto_increment db + 1)
    /\ body = PDict d
    /\ Py.getitem d "id" = Some (PInt (reviews_auto_increment db))
    /\ Py.getitem d "self"
       = Some (PStr (generate_self_url (base_url request)
                       (reviews_auto_increment db)))
    /\ Py.contains d "review_text" = Py.contains (get_json request) "review_text".
Proof.
  intros Hu Hb.
  unfold post_review, select_business, select_reviews_of_business, insert_review,
    reviews_of, stores_review, stored.
  unfold_handler.
  destruct (validate_business_post_put _ _); [|discriminate].
  rewrite Hu, Hb. cbn -[existsb filter].
  repeat (case_inner; cbn -[existsb filter]); try discriminate;
    intros [= <-];
    try match goal with
        | H : Py.contains ?d ?k = false, H' : Py.getitem ?d ?k = Some _ |- _ =>
            rewrite (getitem_contains _ _ _ H') in H; discriminate H
        end;
    match goal with
    | |- context [reviews db ++ [?new]] =>
        match goal with
        | |- context [PDict ?d] => exists new, d
        end
    end;
    simpl;
    (split; [reflexivity|]);
    (split;
     [repeat split;
      first [eexists; split; [reflexivity | eassumption]
            | assumption | reflexivity]|]);
    (split;
     [intros Hin; apply in_map_iff in Hin; destruct Hin as (r0 & Hr0 & Hin);
      match goal with
      | H : existsb _ (reviews db) = false |- _ =>
          apply Bool.not_true_iff_false in H; apply H; apply existsb_exists;
          exists r0; split; [assumption | now apply Z.eqb_eq]
      end|]);
    (split;
     [first [intros row [<- | []]; assumption | intros row []]|]);
    repeat split; first [reflexivity | assumption | symmetry; assumption].
Qed.

(** X12: after a POST /reviews answered 201, the table has one more row
    whose columns are what the engine stored for the payload, with a NULL
    text when the payload has no [review_text]; the body carries its id
    and has a [review_text] exactly when the payload has one; and a GET of
    that id answers 200 with those columns. *)
Theorem post_then_get_review {E : Engine} request db body :
  NoDup (map review_id (reviews db)) ->
  answer (run (post_review request) db) = Responded body 201 ->
  exists r d,
    body = PDict d
    /\ Py.getitem d "id" = Some (PInt (review_id r))
    /\ Py.getitem d "self"
       = Some (PStr (base_url request ++ "/" ++ Py.str (review_id r))%string)
    /\ Py.contains d "review_text" = Py.contains (get_json request) "review_text"
    /\ stores_review (get_json request) r
    /\ reviews (database (run (post_review request) db)) = reviews db ++ [r]
    /\ forall again,
         answer (run (get_review again (review_id r))
                   (database (run (post_review request) db)))
         = Responded
             (PDict [("review_id", PInt (review_id r));
                     ("user_id", PInt (user_id r));
                     ("business_id", PInt (review_business_id r));
                     ("stars", PInt (stars r));
                     ("review_text",
                      match review_text r with Some s => PStr s | None => PNone end);
                     ("self", PStr (base_url again))])
             200.
Proof.
  intros Hnd Hpost.
  destruct (post_review_caught request db) as (body' & status & Ha & _ & _).
  assert (Hvalid : validate_business_post_put (get_json request)
                     REVIEWS_REQUIRED_ATTRIBUTES = true).
  { destruct (validate_business_post_put _ _) eqn:Hv; [reflexivity|].
    unfold run, post_review in Hpost. rewrite Hv in Hpost. discriminate. }
  apply validate_business_post_put_true in Hvalid.
  unfold REVIEWS_REQUIRED_ATTRIBUTES in Hvalid.
  inversion Hvalid as [|k1 l1 Hu Hrest]; subst.
  inversion Hrest as [|k2 l2 Hb _]; subst.
  apply contains_getitem in Hu, Hb.
  destruct Hu as [v_user Hu], Hb as [v_business Hb].
  destruct (post_review_created request db body v_user v_business Hu Hb Hpost)
    as (r & d & Hid & Hstores & Hnew & _ & Hdb & -> & Hbid & Hself & Htext).
  exists r, d.
  split; [reflexivity|]. split; [now rewrite Hid|]. split; [now rewrite Hid|].
  split; [assumption|]. split; [assumption|].
  rewrite Hdb. split; [reflexivity|]. intros again.
  set (db' := mkDatabase _ _ _ _).
  assert (Hnew' : ~ In (review_id r) (map review_id (reviews db)))
    by now rewrite Hid.
  assert (Hnd' : NoDup (map review_id (reviews db'))).
  { simpl. now apply NoDup_app_new. }
  rewrite (get_review_lookup again _ db' Hnd'). simpl.
  now rewrite (find_app_new review_id _ r Hnew').
Qed.

Lemma post_then_get_review_witness :
  exists id,
    answer (run (get_review (Sample.get "http://localhost:8080/reviews/8") id)
              (database
                 (run (post_review
                         (Sample.send "http://localhost:8080/reviews"
                            (Sample.review_by 1 4)))
                    Sample.five)))
    = Responded
        (PDict [("review_id", PInt id); ("user_id", PInt 1);
                ("business_id", PInt 5); ("stars", PInt 4);
                ("review_text", PNone);
                ("self", PStr "http://localhost:8080/reviews/8")])
        200.
Proof.
  assert (Hpost : exists body,
             answer (run (post_review
                            (Sample.send "http://localhost:8080/reviews"
                               (Sample.review_by 1 4)))
                       Sample.five)
             = Responded body 201)
    by (eexists; reflexivity).
  destruct Hpost as [body Hpost].
  destruct (post_then_get_review _ _ _ (proj1 (proj2 five_well_formed)) Hpost)
    as (r & d & _ & _ & _ & _ & _ & Hrows & Hget).
  exists (review_id r).
  rewrite (Hget (Sample.get "http://localhost:8080/reviews/8")).
  simpl in Hrows. injection Hrows as <-. reflexivity.
Defined.

(** X13: once a business has two review rows or more, every POST /reviews
    for it with a complete payload is answered 500, whoever the user is:
    [one_or_none] raises on the rows of the business and the handler
    catches it; the database is as it was. *)
Theorem post_review_on_crowded_business {E : Engine} request db v_business :
  Py.contains (get_json request) "user_id" = true ->
  Py.getitem (get_json request) "business_id" = Some v_business ->
  Py.contains (get_json request) "stars" = true ->
  (exists b, businesses_with db v_business = [b]) ->
  (2 <= List.length (reviews_of db v_business))%nat ->
  run (post_review request) db
  = mkResult (Responded (PDict [("Error", PStr "Unable to create review")]) 500)
      db [Select; Select].
Proof.
  unfold businesses_with, reviews_of. intros Hu Hb Hs [b Hbiz] Hmany.
  unfold post_review, select_business, select_reviews_of_business.
  unfold_handler.
  cbn [validate_business_post_put REVIEWS_REQUIRED_ATTRIBUTES].
  rewrite Hu, (getitem_contains _ _ _ Hb), Hs, Hb.
  cbn -[filter]. rewrite Hbiz. cbn -[filter].
  destruct (filter _ (reviews db)) as [|r1 [|r2 rows]]; simpl in Hmany; try lia.
  reflexivity.
Qed.

Lemma post_review_on_crowded_business_witness :
  status_of
    (answer (run (post_review
                    (Sample.send "http://localhost:8080/reviews"
                       (Sample.review_by 3 5)))
               Sample.crowded)) = 500.
Proof.
  assert (Hbiz : exists b, businesses_with Sample.crowded (PInt 5) = [b])
    by (exists (Sample.business 5 1); reflexivity).
  assert (Hmany : (2 <= List.length (reviews_of Sample.crowded (PInt 5)))%nat)
    by (simpl; lia).
  rewrite (post_review_on_crowded_business
             (Sample.send "http://localhost:8080/reviews" (Sample.review_by 3 5))
             Sample.crowded (PInt 5) eq_refl eq_refl eq_refl Hbiz Hmany).
  reflexivity.
Defined.

(** X14: POST /reviews never gives a user a second review of a business:
    when the payload's [user_id] and [business_id] are integers that the
    engine stores as they are and no user has two reviews of one business
    before the request, none has after it. *)
Theorem post_review_keeps_one_review_each {E : Engine} request db u b :
  Py.getitem (get_json request) "user_id" = Some (PInt u) ->
  Py.getitem (get_json request) "business_id" = Some (PInt b) ->
  to_int (PInt u) = Some u ->
  to_bigint (PInt b) = Some b ->
  one_review_each db ->
  one_review_each (database (run (post_review request) db)).
Proof.
  intros Hu Hb Hiu Hib Hone.
  destruct (post_review_caught request db) as (body & status & Ha & _ & Hsame).
  destruct (Z.eq_dec status 201) as [-> | Hne]; [|now rewrite (Hsame Hne)].
  destruct (post_review_created request db body _ _ Hu Hb Ha)
    as (r & d & _ & (Hsu & Hsb & _) & _ & Hother & Hdb & _).
  rewrite Hdb. unfold one_review_each in *. simpl.
  destruct Hsu as (v & Hv & Hcu), Hsb as (v' & Hv' & Hcb).
  rewrite Hu in Hv. rewrite Hb in Hv'.
  injection Hv as <-. injection Hv' as <-.
  assert (Hru : user_id r = u) by congruence.
  assert (Hrb : review_business_id r = b) by congruence.
  rewrite map_app. simpl. rewrite Hru, Hrb.
  apply NoDup_rev in Hone.
  rewrite <- (rev_involutive (_ ++ [(u, b)])). apply NoDup_rev.
  rewrite rev_app_distr. simpl. constructor; [|assumption].
  rewrite <- in_rev. intros Hin. apply in_map_iff in Hin.
  destruct Hin as (row & Hpair & Hin). injection Hpair as Hrowu Hrowb.
  assert (Hrow : In row (reviews_of db (PInt b))).
  { unfold reviews_of. apply filter_In. split; [assumption|].
    rewrite param_eq_int. now apply Z.eqb_eq. }
  specialize (Hother row Hrow). simpl in Hother.
  rewrite Hrowu, Z.eqb_refl in Hother. discriminate.
Qed.

Lemma post_review_keeps_one_review_each_witness :
  one_review_each Sample.five
  /\ one_review_each
       (database
          (run (post_review
                  (Sample.send "http://localhost:8080/reviews" (Sample.review_by 1 4)))
             Sample.five)).
Proof.
  assert (Hone : one_review_each Sample.five)
    by (unfold one_review_each; simpl; repeat constructor; simpl; tauto).
  split; [exact Hone|].
  apply (post_review_keeps_one_review_each (E := mysql_strict)
           (Sample.send "http://localhost:8080/reviews" (Sample.review_by 1 4))
           Sample.five 1 5 eq_refl eq_refl eq_refl eq_refl Hone).
Defined.

(** ** GET /users/{id}/reviews *)

Lemma string_app_assoc (a b c : string) : ((a ++ b) ++ c = a ++ (b ++ c))%string.
Proof. induction a as [|x a IH]; simpl; [reflexivity | now rewrite IH]. Qed.

Lemma string_app_nil_r (a : string) : (a ++ EmptyString = a)%string.
Proof. induction a as [|x a IH]; simpl; [reflexivity | now rewrite IH]. Qed.

Lemma join_cons (a : string) (l : list string) :
  Py.join (a :: l) = (a ++ Py.join l)%string.
Proof.
  unfold Py.join. destruct l as [|b l]; simpl; [now rewrite string_app_nil_r|].
  reflexivity.
Qed.

Lemma join_set_last (l : list string) (x : string) :
  l <> [] -> Py.join (Py.set_last l x) = (Py.join (removelast l) ++ x)%string.
Proof.
  induction l as [|a l IH]; [congruence|]. intros _.
  destruct l as [|b l]; [reflexivity|].
  change (Py.set_last (a :: b :: l) x) with (a :: Py.set_last (b :: l) x).
  change (removelast (a :: b :: l)) with (a :: removelast (b :: l)).
  rewrite !join_cons, IH by discriminate. now rewrite string_app_assoc.
Qed.

Lemma split_on_from_not_nil sep skip acc s : split_on_from sep skip acc s <> [].
Proof.
  revert skip acc; induction s as [|c s IH]; intros skip acc;
    cbn [split_on_from].
  - discriminate.
  - destruct skip; [|apply IH].
    destruct (String.prefix sep (String c s)); [discriminate | apply IH].
Qed.

Lemma users_review_entry request r : users_review request r = users_entry request r.
Proof.
  unfold users_review, users_entry, site, split_on. cbv zeta.
  rewrite !(join_set_last _ _ (split_on_from_not_nil _ _ _ _)).
  reflexivity.
Qed.

Lemma users_loop request rows done :
  fold_left (fun review_list row => review_list ++ [users_review request row])
    rows done
  = done ++ map (users_entry request) rows.
Proof.
  revert done; induction rows as [|row rows IH]; intros done; simpl.
  - now rewrite app_nil_r.
  - rewrite IH, <- app_assoc, users_review_entry. reflexivity.
Qed.

(** X15: GET /users/{id}/reviews always answers 200 with one entry per
    review row of the user, in table order: the entry has [id] in place of
    [review_id], no [business_id], and two links made of the base URL up
    to its last "users" followed by reviews/<review_id> and by
    businesses/<business_id>.  When "users" occurs once in the base URL,
    that start is the part before it. *)
Theorem get_users_reviews_lists_user {E : Engine} request id db :
  run (get_users_reviews request id) db
  = mkResult
      (Responded
         (PList (map PDict
                   (map (users_entry request)
                      (filter (fun r => user_id r =? id) (reviews db)))))
         200)
      db [Select]
  /\ forall before after,
       split_on (base_url request) "users" = [before; after] ->
       site request = before.
Proof.
  split.
  - unfold run, get_users_reviews, with_connect, bind, select_reviews_of_user,
      query, return_.
    cbv beta iota. rewrite users_loop. simpl. now rewrite select_by_key.
  - intros before after Hsplit. unfold site. rewrite Hsplit. reflexivity.
Qed.

Lemma get_users_reviews_lists_user_witness :
  site (Sample.get "http://localhost:8080/users/3/reviews") = "http://localhost:8080/"
  /\ answer (run (get_users_reviews
                    (Sample.get "http://localhost:8080/users/3/reviews") 3)
               Sample.five)
     = Responded
         (PList [PDict [("user_id", PInt 3); ("stars", PInt 3);
                        ("review_text", PStr "ok");
                        ("self", PStr "http://localhost:8080/reviews/7");
                        ("business", PStr "http://localhost:8080/businesses/2");
                        ("id", PInt 7)]])
         200.
Proof.
  destruct (get_users_reviews_lists_user
              (Sample.get "http://localhost:8080/users/3/reviews") 3 Sample.five)
    as [Hrun Hsite].
  split.
  - apply (Hsite "http://localhost:8080/" "/3/reviews"). reflexivity.
  - rewrite Hrun. reflexivity.
Defined.

(** The host of this URL has "users" in it: the links lose it. *)
Example users_in_the_host :
  site (Sample.get "http://users.example.com/users/3/reviews")
  = "http://.example.com/".
Proof. reflexivity. Qed.

(** ** GET /businesses: the first page *)









(** ** What the validation looks at *)



Example validation_by_body :
  Http.validate_business_post_put (PStr "user_id business_id stars")
    REVIEWS_REQUIRED_ATTRIBUTES = inr true
  /\ Http.validate_business_post_put (PStr "user_id stars")
       REVIEWS_REQUIRED_ATTRIBUTES = inr false
  /\ Http.validate_business_post_put
       (PList [PStr "stars"; PInt 4; PStr "business_id"; PStr "user_id"])
       REVIEWS_REQUIRED_ATTRIBUTES = inr true
  /\ Http.validate_business_post_put (PList [PList [PStr "user_id"]])
       REVIEWS_REQUIRED_ATTRIBUTES = inr false
  /\ Http.validate_business_post_put (PInt 5) REVIEWS_REQUIRED_ATTRIBUTES
     = inl TypeError.
Proof. repeat split; reflexivity. Qed.

